(** * The notebook conversion engine of [converters/base.py]

    A shallow embedding of the [Converter] base class: the dispatch on cell
    kinds and display formats, the assembly of the converted text, the
    extraction of figures into the asset directory, and the life cycle of
    that directory.  Python state (the attributes of [self], the file system,
    the logging channel, the notebook) is threaded explicitly through a state
    and exception monad. *)

From Stdlib Require Import String Ascii List Arith Lia Bool.
From stdpp Require Import base strings list gmap fin_maps.


(** ** Strings as Python uses them *)

Definition nl_char : ascii := ascii_of_nat 10.
Definition slash : ascii := ascii_of_nat 47.
Definition dot : ascii := ascii_of_nat 46.

(** The one-character string written '\n' in the source. *)
Definition nl : string := String nl_char EmptyString.

(** [sep.join(lines)] is [String.concat sep lines]. *)
Definition join (sep : string) (lines : list string) : string :=
  String.concat sep lines.

(** [s.split(c)] for a one-character separator: never empty, and the empty
    string splits into one empty field. *)
Fixpoint str_split (c : ascii) (s : string) : list string :=
  match s with
  | EmptyString => [EmptyString]
  | String a s' =>
      if Ascii.eqb a c then EmptyString :: str_split c s'
      else match str_split c s' with
           | field :: fields => String a field :: fields
           | [] => [String a EmptyString]
           end
  end.

Definition startswith (c : ascii) (s : string) : bool :=
  match s with
  | String a _ => Ascii.eqb a c
  | EmptyString => false
  end.

Fixpoint endswith (c : ascii) (s : string) : bool :=
  match s with
  | EmptyString => false
  | String a EmptyString => Ascii.eqb a c
  | String _ s' => endswith c s'
  end.

Fixpoint contains (c : ascii) (s : string) : bool :=
  match s with
  | EmptyString => false
  | String a s' => Ascii.eqb a c || contains c s'
  end.

Fixpoint all_chars (c : ascii) (s : string) : bool :=
  match s with
  | EmptyString => true
  | String a s' => Ascii.eqb a c && all_chars c s'
  end.

Definition is_empty (s : string) : bool :=
  match s with EmptyString => true | _ => false end.

(** [(p[:i], p[i:])] for [i = p.rfind(c) + 1]: the first component is empty
    when [c] does not occur, and ends with the last [c] otherwise. *)
Fixpoint cut_after_last (c : ascii) (p : string) : string * string :=
  match p with
  | EmptyString => (EmptyString, EmptyString)
  | String a p' =>
      let '(h, t) := cut_after_last c p' in
      if negb (is_empty h) then (String a h, t)
      else if Ascii.eqb a c then (String a EmptyString, t)
      else (EmptyString, String a t)
  end.

(** [s.rstrip(c)] *)
Fixpoint rstrip (c : ascii) (s : string) : string :=
  match s with
  | EmptyString => EmptyString
  | String a s' =>
      let r := rstrip c s' in
      if is_empty r && Ascii.eqb a c then EmptyString else String a r
  end.

(** [s[:-1]] *)
Fixpoint drop_last (s : string) : string :=
  match s with
  | EmptyString => EmptyString
  | String _ EmptyString => EmptyString
  | String a s' => String a (drop_last s')
  end.

(** *** [posixpath] *)

(** [os.path.join(a, b)] *)
Definition path_join (a b : string) : string :=
  if startswith slash b then b
  else if is_empty a || endswith slash a then a +:+ b
  else a +:+ "/" +:+ b.

(** [os.path.split(p)] *)
Definition path_split (p : string) : string * string :=
  let '(head, tail) := cut_after_last slash p in
  (if negb (is_empty head) && negb (all_chars slash head)
   then rstrip slash head else head, tail).

(** [os.path.splitext(p)]: the extension starts at the last dot of the last
    path component, unless only dots precede it there. *)
Definition path_splitext (p : string) : string * string :=
  let '(dir, name) := cut_after_last slash p in
  let '(stem_dot, ext) := cut_after_last dot name in
  if is_empty stem_dot || all_chars dot (drop_last stem_dot)
  then (p, EmptyString)
  else (dir +:+ drop_last stem_dot, String dot ext).

(** The base name of the document [infile], and the asset directory that
    is named after it. *)
Definition doc_root (infile : string) : string :=
  fst (path_splitext (snd (path_split infile))).

Definition asset_dir (infile : string) : string :=
  path_join (fst (path_split infile)) (doc_root infile +:+ "_files").

(** *** [%]-formatting of the figure index *)

Definition digit (d : nat) : ascii := ascii_of_nat (48 + d).

Fixpoint decimal_fuel (fuel n : nat) : string :=
  match fuel with
  | 0 => EmptyString
  | S fuel' =>
      if n <? 10 then String (digit n) EmptyString
      else decimal_fuel fuel' (n / 10) +:+ String (digit (n mod 10)) EmptyString
  end.

(** ['%i' % n] for a natural number. *)
Definition decimal (n : nat) : string := decimal_fuel (S n) n.

Fixpoint zeros (k : nat) : string :=
  match k with
  | 0 => EmptyString
  | S k' => String (digit 0) (zeros k')
  end.

(** ['%02i' % n]: left-padded with zeros up to width two, never truncated. *)
Definition pad2 (n : nat) : string :=
  let d := decimal n in zeros (2 - String.length d) +:+ d.

(** Reading a decimal numeral back (leading zeros allowed). *)
Definition digit_value (a : ascii) : nat := nat_of_ascii a - 48.

Definition is_digit (a : ascii) : bool :=
  (48 <=? nat_of_ascii a) && (nat_of_ascii a <=? 57).

Fixpoint read_decimal_acc (acc : nat) (s : string) : nat :=
  match s with
  | EmptyString => acc
  | String a s' => read_decimal_acc (10 * acc + digit_value a) s'
  end.

Definition read_decimal (s : string) : nat := read_decimal_acc 0 s.

(** The longest prefix of digits. *)
Fixpoint take_digits (s : string) : string :=
  match s with
  | EmptyString => EmptyString
  | String a s' => if is_digit a then String a (take_digits s') else EmptyString
  end.

Fixpoint all_digits (s : string) : bool :=
  match s with
  | EmptyString => true
  | String a s' => is_digit a && all_digits s'
  end.

(** ** The notebook *)

(** A [NotebookNode] is a dictionary with attribute access; its items are
    kept in the iteration order of the dictionary. *)
Inductive Node : Type :=
  | Dict (items : list (string * Value))
with Value : Type :=
  | VStr (s : string)
  | VList (l : list Node).

Definition items_of (n : Node) : list (string * Value) :=
  match n with Dict items => items end.

(** [node.keys()] *)
Definition keys (n : Node) : list string := map fst (items_of n).

Fixpoint assoc {A} (k : string) (l : list (string * A)) : option A :=
  match l with
  | [] => None
  | (k', v) :: l' => if String.eqb k k' then Some v else assoc k l'
  end.

(** [node[key]] and [node.key] *)
Definition node_get (n : Node) (key : string) : option Value :=
  assoc key (items_of n).

Fixpoint assoc_set {A} (k : string) (v : A) (l : list (string * A))
  : list (string * A) :=
  match l with
  | [] => [(k, v)]
  | (k', v') :: l' =>
      if String.eqb k k' then (k, v) :: l' else (k', v') :: assoc_set k v l'
  end.

(** [node.key = v] *)
Definition node_set (n : Node) (key : string) (v : Value) : Node :=
  Dict (assoc_set key v (items_of n)).

(** [self.nb.worksheets], each worksheet given by its [cells]. *)
Definition Notebook : Type := list (list Node).

(** ** Exceptions, state and the monad *)

Inductive exn : Type :=
  | NotImplementedError
  | TypeError
  | AttributeError
  | KeyError
  | IOError
  | OSError
  | BinasciiError
  | UnicodeError
  | FormatError (msg : string).

Inductive result (St A : Type) : Type :=
  | Ok (a : A) (s : St)
  | Raise (e : exn) (s : St).
Arguments Ok {St A} a s.
Arguments Raise {St A} e s.

Definition M (St A : Type) : Type := St -> result St A.

Definition ret {St A} (a : A) : M St A := fun s => Ok a s.

Definition bind {St A B} (m : M St A) (k : A -> M St B) : M St B :=
  fun s => match m s with
           | Ok a s' => k a s'
           | Raise e s' => Raise e s'
           end.

Definition raise {St A} (e : exn) : M St A := fun s => Raise e s.
Definition get {St} : M St St := fun s => Ok s s.
Definition modify {St} (f : St -> St) : M St unit := fun s => Ok tt (f s).

Declare Scope py_scope.
Delimit Scope py_scope with py.
Notation "x <- m ;; k" := (bind m (fun x => k))
  (at level 100, m at next level, right associativity) : py_scope.
Notation "m ;;; k" := (bind m (fun _ => k))
  (at level 100, right associativity) : py_scope.
Local Open Scope py_scope.

(** Running a list of actions in order and collecting the results. *)
Fixpoint mapM {St A B} (f : A -> M St B) (l : list A) : M St (list B) :=
  match l with
  | [] => ret []
  | a :: l' => b <- f a ;; bs <- mapM f l' ;; ret (b :: bs)
  end.

Definition state_of {St A} (r : result St A) : St :=
  match r with Ok _ s => s | Raise _ s => s end.

(** *** The file system, as far as a session sees it

    A path names a regular file or a directory; a directory lists regular
    files by name.  Two paths name the same entry only when they are the same
    string. *)
Inductive entry : Type :=
  | File (content : string)
  | Dir (listing : gmap string string).

(** The attributes of a [Converter] instance apart from [nb], together with
    the file system and the records of the logging channel. *)
Record Session : Type := mkSession {
  infile : string;
  infile_dir : string;
  infile_root : string;
  files_dir : string;
  outbase : string;
  default_encoding : string;
  figures_counter : nat;
  fs : gmap string entry;
  log : list string
}.

Definition set_infile (v : string) (s : Session) : Session :=
  mkSession v (infile_dir s) (infile_root s) (files_dir s) (outbase s)
            (default_encoding s) (figures_counter s) (fs s) (log s).

Definition set_infile_dir (v : string) (s : Session) : Session :=
  mkSession (infile s) v (infile_root s) (files_dir s) (outbase s)
            (default_encoding s) (figures_counter s) (fs s) (log s).

Definition set_infile_root (v : string) (s : Session) : Session :=
  mkSession (infile s) (infile_dir s) v (files_dir s) (outbase s)
            (default_encoding s) (figures_counter s) (fs s) (log s).

Definition set_files_dir (v : string) (s : Session) : Session :=
  mkSession (infile s) (infile_dir s) (infile_root s) v (outbase s)
            (default_encoding s) (figures_counter s) (fs s) (log s).

Definition set_outbase (v : string) (s : Session) : Session :=
  mkSession (infile s) (infile_dir s) (infile_root s) (files_dir s) v
            (default_encoding s) (figures_counter s) (fs s) (log s).

Definition set_figures_counter (n : nat) (s : Session) : Session :=
  mkSession (infile s) (infile_dir s) (infile_root s) (files_dir s) (outbase s)
            (default_encoding s) n (fs s) (log s).

Definition set_fs (f : gmap string entry) (s : Session) : Session :=
  mkSession (infile s) (infile_dir s) (infile_root s) (files_dir s) (outbase s)
            (default_encoding s) (figures_counter s) f (log s).

Definition set_log (l : list string) (s : Session) : Session :=
  mkSession (infile s) (infile_dir s) (infile_root s) (files_dir s) (outbase s)
            (default_encoding s) (figures_counter s) (fs s) l.

(** The class attributes of [Converter], before [__init__] has run. *)
Definition class_defaults (f : gmap string entry) (l : list string) : Session :=
  let unset := EmptyString in
  mkSession unset unset unset unset unset "utf-8" 0 f l.

(** [os.path.isdir(p)] *)
Definition isdir (p : string) (s : Session) : bool :=
  match fs s !! p with Some (Dir _) => true | _ => false end.

(** [os.mkdir(p)] *)
Definition mkdir (p : string) : M Session unit :=
  fun s => match fs s !! p with
           | Some _ => Raise OSError s
           | None => Ok tt (set_fs (<[p := Dir ∅]> (fs s)) s)
           end.

(** [os.listdir(p)] *)
Definition listdir (p : string) : M Session (list string) :=
  fun s => match fs s !! p with
           | Some (Dir d) => Ok (map fst (map_to_list d)) s
           | _ => Raise OSError s
           end.

(** [os.rmdir(p)] *)
Definition rmdir (p : string) : M Session unit :=
  fun s => match fs s !! p with
           | Some (Dir d) =>
               if decide (d = ∅) then Ok tt (set_fs (delete p (fs s)) s)
               else Raise OSError s
           | _ => Raise OSError s
           end.

(** Storing [content] under the name [name] of directory [dir]: what opening
    [os.path.join(dir, name)] for writing, or writing to the open file, does
    to the file system.  The name must be a plain entry name. *)
Definition store (dir name content : string) : M Session unit :=
  fun s => match fs s !! dir with
           | Some (Dir d) =>
               if contains slash name || is_empty name then Raise IOError s
               else
                 let d' := <[name := content]> d in
                 Ok tt (set_fs (<[dir := Dir d']> (fs s)) s)
           | _ => Raise IOError s
           end.

(** [logging.warning(msg)] *)
Definition logging_warning (msg : string) : M Session unit :=
  modify (fun s => set_log (log s ++ [msg]) s).

(** The content of the file [name] of directory [dir]. *)
Definition read_file (dir name : string) (s : Session) : option string :=
  match fs s !! dir with
  | Some (Dir d) => d !! name
  | _ => None
  end.

(** The names listed in directory [dir], if it is one. *)
Definition dir_listing (dir : string) (s : Session)
  : option (gmap string string) :=
  match fs s !! dir with
  | Some (Dir d) => Some d
  | _ => None
  end.

(** ** Methods and formats *)

(** What a method is called with, after [self]. *)
Inductive arg : Type :=
  | ANode (n : Node)
  | AStr (s : string).

(** A bound method that returns a list of lines.  Calling it with a number of
    arguments other than its arity raises [TypeError] before the body runs. *)
Record method : Type := Method {
  arity : nat;
  body : list arg -> M Session (list string)
}.

Definition call (m : method) (args : list arg) : M Session (list string) :=
  if length args =? arity m then body m args else raise TypeError.

(** A concrete format is a subclass of [Converter]: the attributes it defines
    itself, by name.  The renderers of a format work on the session; the
    notebook reaches them only through the node they are called with. *)
Record Format : Type := mkFormat {
  attrs : gmap string method
}.

(** A method of the base class whose body is [raise NotImplementedError]. *)
Definition abstract (n : nat) : method :=
  Method n (fun _ => raise NotImplementedError).

Definition abstract_methods : list (string * method) :=
  [ ("render_heading", abstract 1);
    ("render_code", abstract 1);
    ("render_markdown", abstract 1);
    ("_img_lines", abstract 1);
    ("render_raw", abstract 1);
    ("render_pyout", abstract 1);
    ("render_pyerr", abstract 1);
    ("_unknown_lines", abstract 1);
    ("render_display_format_text", abstract 1);
    ("render_display_format_html", abstract 1);
    ("render_display_format_latex", abstract 1);
    ("render_display_format_json", abstract 1);
    ("render_display_format_javascript", abstract 1) ].

(** [self.name] for an attribute the base class defines as [inherited]. *)
Definition self_attr (self : Format) (name : string) (inherited : method)
  : method :=
  default inherited (attrs self !! name).

(** [getattr(self, name, None)] restricted to the subclass and the abstract
    methods of the base class.  The methods below look names up through it;
    [getattr_stratified] shows that the full lookup agrees on those names. *)
Definition getattr_abstract (self : Format) (name : string) : option method :=
  match attrs self !! name with
  | Some m => Some m
  | None => assoc name abstract_methods
  end.

Definition str_in (x : string) (l : list string) : bool :=
  existsb (String.eqb x) l.

(** ['%s_fig_%02i.%s' % (root, index, fmt)] *)
Definition figure_name (root : string) (index : nat) (fmt : string) : string :=
  root +:+ "_fig_" +:+ pad2 index +:+ "." +:+ fmt.

(** The names listed in [d] are figure names of [root] numbered below [c]. *)
Definition numbered_below (root : string) (c : nat) (d : gmap string string)
  : Prop :=
  forall name, is_Some (d !! name) ->
               exists k fmt, k < c /\ name = figure_name root k fmt.

Definition image_formats : list string := ["png"; "svg"; "jpg"; "pdf"].
Definition binary_formats : list string := ["png"; "jpg"; "pdf"].

(** [optional_header] and [optional_footer] of the base class. *)
Definition optional_header : method := Method 0 (fun _ => ret []).
Definition optional_footer : method := Method 0 (fun _ => ret []).

(** The session together with the notebook [self.nb], absent until [read]
    has run. *)
Record State : Type := mkState {
  session : Session;
  nb : option Notebook
}.

Definition lift {A} (m : M Session A) : M State A :=
  fun st => match m (session st) with
            | Ok a s' => Ok a (mkState s' (nb st))
            | Raise e s' => Raise e (mkState s' (nb st))
            end.

(** Cell [j] of worksheet [i] becomes [c]. *)
Definition update_cell (i j : nat) (c : Node) (wss : Notebook) : Notebook :=
  alter (fun cells => <[j := c]> cells) i wss.

Definition is_nil {A} (l : list A) : bool :=
  match l with [] => true | _ => false end.


(** The cells of a notebook in document order, each with the index of its
    worksheet and its index in the worksheet. *)
Definition positioned_cells (worksheets : Notebook) : list (nat * nat * Node) :=
  concat (imap (fun i cells => imap (fun j cell => (i, j, cell)) cells)
               worksheets).

(** The library functions the class calls. *)
Class Library : Type := {
  (** [pprint.pformat] *)
  pformat : Node -> string;
  (** [str] of a list of nodes, as ['%s' %] prints it. *)
  str_of_list : list Node -> string;
  (** [data.decode('base64')]; [None] when it raises. *)
  base64_decode : string -> option string;
  (** Encoding text in a named encoding; [None] when it raises. *)
  codecs_encode : string -> string -> option string;
  (** [converters.utils.remove_fake_files_url] as a function of the cell it
      rewrites in place. *)
  remove_fake_files_url : Node -> exn + Node
}.

Section Engine.

Context {lib : Library}.

(** ['%s' % v] *)
Definition format_s (v : Value) : string :=
  match v with
  | VStr s => s
  | VList l => str_of_list l
  end.

(** [Converter.__init__] *)
Definition __init__ (infile : string) : M Session unit :=
  modify (set_infile infile) ;;;
  let '(infile_dir, infile_root) := path_split infile in
  modify (set_infile_dir infile_dir) ;;;
  let infile_root := fst (path_splitext infile_root) in
  let files_dir := path_join infile_dir (infile_root +:+ "_files") in
  s <- get ;;
  (if negb (isdir files_dir s) then mkdir files_dir else ret tt) ;;;
  modify (set_infile_root infile_root) ;;;
  modify (set_files_dir files_dir) ;;;
  modify (set_outbase (path_join infile_dir infile_root)).

(** [Converter.__del__] *)
Definition __del__ : M Session unit :=
  s <- get ;;
  if isdir (files_dir s) s then
    names <- listdir (files_dir s) ;;
    if is_nil names then rmdir (files_dir s) else ret tt
  else ret tt.

(** [Converter._new_figure] *)
Definition _new_figure (data : Value) (fmt : string) : M Session string :=
  s <- get ;;
  let figname := figure_name (infile_root s) (figures_counter s) fmt in
  modify (set_figures_counter (figures_counter s + 1)) ;;;
  let fullname := path_join (files_dir s) figname in
  if str_in fmt binary_formats then
    data <- match data with
            | VStr d => match base64_decode d with
                        | Some b => ret b
                        | None => raise BinasciiError
                        end
            | VList _ => raise AttributeError
            end ;;
    store (files_dir s) figname EmptyString ;;;
    store (files_dir s) figname data ;;;
    ret fullname
  else
    store (files_dir s) figname EmptyString ;;;
    data <- match data with
            | VStr d => match codecs_encode (default_encoding s) d with
                        | Some b => ret b
                        | None => raise UnicodeError
                        end
            | VList _ => raise TypeError
            end ;;
    store (files_dir s) figname data ;;;
    ret fullname.

(** [Converter.render_unknown] *)
Definition render_unknown (self : Format) : method :=
  Method 1 (fun args =>
    match args with
    | [ANode cell] =>
        let data := pformat cell in
        match node_get cell "cell_type" with
        | Some cell_type =>
            logging_warning ("Unknown cell: " +:+ format_s cell_type) ;;;
            call (self_attr self "_unknown_lines" (abstract 1)) [AStr data]
        | None => raise AttributeError
        end
    | _ => raise AttributeError
    end).

(** [Converter.render_unknown_display], a method of two arguments. *)
Definition render_unknown_display (self : Format) : method :=
  Method 2 (fun args =>
    match args with
    | [ANode output; _] =>
        let data := pformat output in
        match node_get output "output_type" with
        | Some output_type =>
            logging_warning ("Unknown output: " +:+ format_s output_type) ;;;
            call (self_attr self "_unknown_lines" (abstract 1)) [AStr data]
        | None => raise AttributeError
        end
    | _ => raise AttributeError
    end).

(** [Converter.render_stream] *)
Definition render_stream (self : Format) : method :=
  Method 1 (fun args =>
    match args with
    | [output] =>
        call (self_attr self "render_display_format_text" (abstract 1)) [output]
    | _ => raise TypeError
    end).

(** [Converter.dispatch_display_format] *)
Definition dispatch_display_format (self : Format) (format : string)
  : method :=
  default (self_attr self "render_unknown_display"
                     (render_unknown_display self))
          (getattr_abstract self ("render_display_format_" +:+ format)).

(** The loop of [render_display_data] over [output.keys()], with the
    [lines] collected so far. *)
Fixpoint display_data_loop (self : Format) (output : Node)
    (fmts : list string) (lines : list string) : M Session (list string) :=
  match fmts with
  | [] => ret lines
  | fmt :: fmts' =>
      if str_in fmt image_formats then
        payload <- match node_get output fmt with
                   | Some v => ret v
                   | None => raise KeyError
                   end ;;
        img_file <- _new_figure payload fmt ;;
        let lines_fun :=
          match getattr_abstract self ("_" +:+ fmt +:+ "_lines") with
          | Some f => f
          | None => self_attr self "_img_lines" (abstract 1)
          end in
        new_lines <- call lines_fun [AStr img_file] ;;
        display_data_loop self output fmts' (lines ++ new_lines)
      else if negb (String.eqb fmt "output_type") then
        let conv_fn := dispatch_display_format self fmt in
        new_lines <- call conv_fn [ANode output] ;;
        display_data_loop self output fmts' (lines ++ new_lines)
      else display_data_loop self output fmts' lines
  end.

(** [Converter.render_display_data] *)
Definition render_display_data (self : Format) : method :=
  Method 1 (fun args =>
    match args with
    | [ANode output] => display_data_loop self output (keys output) []
    | _ => raise AttributeError
    end).

(** The methods of the base class that have a body of their own. *)
Definition concrete_methods (self : Format) : list (string * method) :=
  [ ("optional_header", optional_header);
    ("optional_footer", optional_footer);
    ("render_display_data", render_display_data self);
    ("render_unknown", render_unknown self);
    ("render_unknown_display", render_unknown_display self);
    ("render_stream", render_stream self) ].

(** [getattr(self, name, None)]: the subclass first, then the base class. *)
Definition getattr (self : Format) (name : string) : option method :=
  match attrs self !! name with
  | Some m => Some m
  | None => assoc name (abstract_methods ++ concrete_methods self)
  end.

(** [Converter.dispatch] *)
Definition dispatch (self : Format) (cell_type : string) : method :=
  default (self_attr self "render_unknown" (render_unknown self))
          (getattr self ("render_" +:+ cell_type)).

(** [remove_fake_files_url(cell)] on cell [j] of worksheet [i]: the cell is
    rewritten where it lives in the notebook. *)
Definition strip_in_place (i j : nat) (cell : Node) : M State Node :=
  fun st => match remove_fake_files_url cell with
            | inl e => Raise e st
            | inr cell' =>
                Ok cell' (mkState (session st)
                                  (update_cell i j cell' <$> nb st))
            end.

(** The body of the inner loop of [main_body], up to the string that is
    appended to [converted_cells]. *)
Definition convert_cell (self : Format) (i j : nat) (cell : Node)
  : M State string :=
  cell_type <- match node_get cell "cell_type" with
               | Some (VStr k) => ret k
               | Some (VList _) => raise TypeError
               | None => raise AttributeError
               end ;;
  let conv_fn := dispatch self cell_type in
  cell <- (if str_in cell_type ["markdown"; "raw"]
           then strip_in_place i j cell else ret cell) ;;
  lines <- lift (call conv_fn [ANode cell]) ;;
  ret (join nl lines).

Fixpoint cells_loop (self : Format) (i j : nat) (cells : list Node)
    (converted_cells : list string) : M State (list string) :=
  match cells with
  | [] => ret converted_cells
  | cell :: cells' =>
      converted <- convert_cell self i j cell ;;
      cells_loop self i (S j) cells' (converted_cells ++ [converted])
  end.

Fixpoint worksheets_loop (self : Format) (i : nat) (worksheets : Notebook)
    (converted_cells : list string) : M State (list string) :=
  match worksheets with
  | [] => ret converted_cells
  | cells :: worksheets' =>
      converted_cells <- cells_loop self i 0 cells converted_cells ;;
      worksheets_loop self (S i) worksheets' converted_cells
  end.

(** [Converter.main_body] *)
Definition main_body (self : Format) (cell_separator : string)
  : M State (list string) :=
  st <- get ;;
  match nb st with
  | None => raise AttributeError
  | Some worksheets =>
      converted_cells <- worksheets_loop self 0 worksheets [] ;;
      ret (str_split nl_char (join cell_separator converted_cells))
  end.

(** [Converter.convert] *)
Definition convert (self : Format) (cell_separator : string) : M State string :=
  let lines := [] in
  header <- lift (call (self_attr self "optional_header" optional_header) []) ;;
  let lines := lines ++ header in
  body_lines <- main_body self cell_separator ;;
  let lines := lines ++ body_lines in
  footer <- lift (call (self_attr self "optional_footer" optional_footer) []) ;;
  let lines := lines ++ footer in
  ret (join nl lines).

(** *** The assembly and the display data as the specification words them *)






(** *** Sessions *)

(** A run of figure extractions, one per request [(payload, tag)]. *)
Definition extract_all (requests : list (Value * string))
  : M Session (list string) :=
  mapM (fun r => _new_figure r.1 r.2) requests.

(** A whole session on [infile]: set-up, the extractions, tear-down. *)
Definition session_run (infile : string) (requests : list (Value * string))
  : M Session (list string) :=
  __init__ infile ;;;
  paths <- extract_all requests ;;
  __del__ ;;;
  ret paths.


End Engine.

(** ** Instances used in the examples *)

(** [s.replace(marker, '')] for a non-empty marker: occurrences are removed
    from left to right; [skip] counts the characters of a matched occurrence
    that remain to be dropped. *)
Fixpoint remove_marker (marker : string) (skip : nat) (s : string) : string :=
  match s with
  | EmptyString => EmptyString
  | String a s' =>
      match skip with
      | S k => remove_marker marker k s'
      | 0 =>
          if String.prefix marker s
          then remove_marker marker (String.length marker - 1) s'
          else String a (remove_marker marker 0 s')
      end
  end.

(** Modelled from the spec: [remove_fake_files_url] of
    [converters/utils.py], whose source is missing.  The assembler calls it
    on markdown and raw cells to strip the fake-files URL marker from the
    content of the cell before rendering; the marker is taken to be the path
    prefix [/files/] and the content to be the [source] of the cell. *)
Definition strip_fake_files_url (cell : Node) : exn + Node :=
  match node_get cell "source" with
  | Some (VStr src) =>
      inr (node_set cell "source" (VStr (remove_marker "/files/" 0 src)))
  | _ => inl AttributeError
  end.

(** A strict decoder of the standard base64 alphabet, four characters at a
    time, with [=] padding in the last group only. *)
Definition sextet (a : ascii) : option nat :=
  let n := nat_of_ascii a in
  if (65 <=? n) && (n <=? 90) then Some (n - 65)
  else if (97 <=? n) && (n <=? 122) then Some (n - 71)
  else if (48 <=? n) && (n <=? 57) then Some (n + 4)
  else if n =? 43 then Some 62
  else if n =? 47 then Some 63
  else None.

Definition byte_string (l : list nat) : string :=
  string_of_list_ascii (map ascii_of_nat l).

Fixpoint b64_groups (fuel : nat) (l : list ascii) : option (list nat) :=
  match fuel with
  | 0 => None
  | S fuel' =>
      match l with
      | [] => Some []
      | [a; b; c; d] =>
          match sextet a, sextet b with
          | Some x, Some y =>
              let b1 := x * 4 + y / 16 in
              if Ascii.eqb c "=" && Ascii.eqb d "=" then Some [b1]
              else match sextet c with
                   | Some z =>
                       let b2 := (y mod 16) * 16 + z / 4 in
                       if Ascii.eqb d "=" then Some [b1; b2]
                       else match sextet d with
                            | Some w => Some [b1; b2; (z mod 4) * 64 + w]
                            | None => None
                            end
                   | None => None
                   end
          | _, _ => None
          end
      | a :: b :: c :: d :: l' =>
          match sextet a, sextet b, sextet c, sextet d, b64_groups fuel' l' with
          | Some x, Some y, Some z, Some w, Some rest =>
              Some (x * 4 + y / 16 :: (y mod 16) * 16 + z / 4
                    :: (z mod 4) * 64 + w :: rest)
          | _, _, _, _, _ => None
          end
      | _ => None
      end
  end.

Definition b64decode_strict (s : string) : option string :=
  byte_string <$> b64_groups (S (String.length s)) (list_ascii_of_string s).

(** Text is kept as its UTF-8 bytes, so encoding it in UTF-8 changes nothing;
    no other encoding is provided. *)
Definition utf8_only (encoding : string) (text : string) : option string :=
  if String.eqb encoding "utf-8" then Some text else None.

(** A printer that shows the keys of a node. *)
Definition keys_pformat (n : Node) : string :=
  "{" +:+ join ", " (keys n) +:+ "}".

Definition count_str_of_list (l : list Node) : string :=
  "[" +:+ decimal (length l) +:+ " nodes]".

(** A small plain-text format: markdown cells give their source, unknown
    content is shown between brackets, images are referenced by path, and
    text output is echoed. *)
Definition source_lines : method :=
  Method 1 (fun args =>
    match args with
    | [ANode cell] =>
        match node_get cell "source" with
        | Some (VStr src) => ret (str_split nl_char src)
        | _ => raise AttributeError
        end
    | _ => raise AttributeError
    end).

Definition bracket_lines : method :=
  Method 1 (fun args =>
    match args with
    | [AStr data] => ret ["[" +:+ data +:+ "]"]
    | _ => raise TypeError
    end).

Definition image_lines : method :=
  Method 1 (fun args =>
    match args with
    | [AStr path] => ret ["image: " +:+ path]
    | _ => raise TypeError
    end).

Definition vector_image_lines : method :=
  Method 1 (fun args =>
    match args with
    | [AStr path] => ret ["vector image: " +:+ path]
    | _ => raise TypeError
    end).

Definition text_lines : method :=
  Method 1 (fun args =>
    match args with
    | [ANode output] =>
        match node_get output "text" with
        | Some (VStr t) => ret (str_split nl_char t)
        | _ => raise AttributeError
        end
    | _ => raise AttributeError
    end).

Definition banner : method := Method 0 (fun _ => ret ["BEGIN"]).

Definition plain_format : Format :=
  mkFormat (list_to_map
    [ ("render_markdown", source_lines);
      ("render_raw", source_lines);
      ("_unknown_lines", bracket_lines);
      ("_img_lines", image_lines);
      ("_svg_lines", vector_image_lines);
      ("render_display_format_text", text_lines);
      ("optional_header", banner) ]).

(** The base class itself, with nothing overridden. *)
Definition bare_format : Format := mkFormat ∅.

Definition markdown_cell (src : string) : Node :=
  Dict [("cell_type", VStr "markdown"); ("source", VStr src)].

Definition odd_cell : Node :=
  Dict [("cell_type", VStr "slide"); ("source", VStr "x")].

(** A display-data output whose only payload has the tag [jpeg]. *)
Definition jpeg_output : Node :=
  Dict [("output_type", VStr "display_data"); ("jpeg", VStr "aGk=")].

(** Two figures to extract: a bitmap and a drawing. *)
Definition sample_requests : list (Value * string) :=
  [(VStr "aGk=", "png"); (VStr "<svg/>", "svg")].

(** A session on [nb.ipynb] whose asset directory exists and is empty. *)
Definition sample_session : Session :=
  mkSession "nb.ipynb" EmptyString "nb" "nb_files" "nb" "utf-8" 0
            {[ "nb_files" := Dir ∅ ]} [].

(** The library as the examples use it. *)
#[export] Instance sample_library : Library := {|
  pformat := keys_pformat;
  str_of_list := count_str_of_list;
  base64_decode := b64decode_strict;
  codecs_encode := utf8_only;
  remove_fake_files_url := strip_fake_files_url
|}.

(** The session above after [read]: one worksheet with a markdown cell and a
    cell of a kind the format does not know. *)
Definition sample_state : State :=
  mkState sample_session (Some [[markdown_cell "see /files/a.png"; odd_cell]]).

(** ** Further notions used in the properties *)

(** The number of image tags among the format tags [fmts]. *)
Fixpoint count_image_tags (fmts : list string) : nat :=
  match fmts with
  | [] => 0
  | fmt :: fmts' =>
      (if str_in fmt image_formats then 1 else 0) + count_image_tags fmts'
  end.

(** The methods a format defines itself leave the figure counter alone. *)
Definition keeps_figures_counter (self : Format) : Prop :=
  forall name m args s,
    attrs self !! name = Some m ->
    figures_counter (state_of (body m args s)) = figures_counter s.

(** ** The metaclass [DocStringInheritor]

    Objects are known by their address, and the store [docs] holds the
    [__doc__] of every object that has one.  A class body binds names to
    objects, function objects or others; a base class is seen as the map
    from each of its attribute names, inherited ones included, to the object
    whose [__doc__] [getattr(baseclass, name).__doc__] reads.  The store is
    shared: an object of the class body may also be an attribute of a
    base. *)
Inductive attribute : Type :=
  | FunctionObject (address : nat)
  | OtherObject (address : nat).

#[global] Instance attribute_eq_dec : EqDecision attribute.
Proof. solve_decision. Defined.

(** [if basefn.__doc__:] *)
Definition truthy_doc (doc : option string) : bool :=
  match doc with
  | Some d => negb (is_empty d)
  | None => false
  end.

(** The loop over [bases] for one attribute name: the docstring that is
    attached, if the loop reaches its [break]. *)
Fixpoint inherited_doc (bases : list (gmap string nat))
    (attributeName : string) (docs : gmap nat string) : option string :=
  match bases with
  | [] => None
  | baseclass :: bases' =>
      match baseclass !! attributeName with
      | Some basefn =>
          if truthy_doc (docs !! basefn) then docs !! basefn
          else inherited_doc bases' attributeName docs
      | None => inherited_doc bases' attributeName docs
      end
  end.

(** The loop over [classDict.items()], with [newClassDict] as built so far
    and the store of docstrings. *)
Fixpoint docstring_loop (bases : list (gmap string nat))
    (items : list (string * attribute))
    (newClassDict : gmap string attribute) (docs : gmap nat string)
  : gmap string attribute * gmap nat string :=
  match items with
  | [] => (newClassDict, docs)
  | (attributeName, attr) :: items' =>
      let docs :=
        match attr with
        | FunctionObject address =>
            match inherited_doc bases attributeName docs with
            | Some doc => <[address := doc]> docs
            | None => docs
            end
        | OtherObject _ => docs
        end in
      docstring_loop bases items' (<[attributeName := attr]> newClassDict) docs
  end.

(** [DocStringInheritor.__new__]: the dictionary handed to [type.__new__]
    and the docstrings after the loop.  [classDict] lists the items of the
    class body in the order the loop meets them. *)
Definition DocStringInheritor_new (bases : list (gmap string nat))
    (classDict : list (string * attribute)) (docs : gmap nat string)
  : gmap string attribute * gmap nat string :=
  docstring_loop bases classDict ∅ docs.

(** The function object at [address] is bound in [items]. *)
Definition binds_function (items : list (string * attribute)) (address : nat)
  : Prop :=
  exists name, (name, FunctionObject address) ∈ items.

(** No attribute of a base is one of the function objects of [items]: the
    class body defines its functions anew. *)
Definition defines_anew (bases : list (gmap string nat))
    (items : list (string * attribute)) : Prop :=
  forall baseclass name address,
    baseclass ∈ bases -> baseclass !! name = Some address ->
    ~ binds_function items address.

(** The base at position [i] is the first one that has the attribute with a
    docstring that counts as true, and that docstring is [doc]. *)
Definition first_documented (bases : list (gmap string nat))
    (attributeName : string) (docs : gmap nat string) (i : nat) (doc : string)
  : Prop :=
  (exists baseclass basefn,
      bases !! i = Some baseclass /\ baseclass !! attributeName = Some basefn /\
      docs !! basefn = Some doc /\ is_empty doc = false) /\
  forall j baseclass basefn,
    j < i -> bases !! j = Some baseclass ->
    baseclass !! attributeName = Some basefn ->
    truthy_doc (docs !! basefn) = false.



(** ** Further sample data *)

(** A format without a banner: the header and footer of the base class. *)
Definition notes_format : Format :=
  mkFormat (list_to_map
    [ ("render_markdown", source_lines);
      ("render_raw", source_lines);
      ("_unknown_lines", bracket_lines) ]).

Definition code_cell : Node :=
  Dict [("cell_type", VStr "code"); ("input", VStr "1+1")].

(** A notebook whose second cell no sample format can render. *)
Definition stuck_state : State :=
  mkState sample_session (Some [[markdown_cell "a"; code_cell; odd_cell]]).

(** The sample session with ASCII as its default encoding, which the sample
    library does not provide. *)
Definition ascii_session : Session :=
  mkSession "nb.ipynb" EmptyString "nb" "nb_files" "nb" "ascii" 0
            {[ "nb_files" := Dir ∅ ]} [].

(** A base class with a documented and an undocumented method and a string
    attribute, and the body of a class that overrides all three and adds a
    helper. *)
Definition base_attributes : gmap string nat :=
  list_to_map [("render_code", 1); ("render_heading", 2); ("extension", 3)].

Definition class_body : list (string * attribute) :=
  [ ("render_code", FunctionObject 10);
    ("render_heading", FunctionObject 11);
    ("extension", OtherObject 12);
    ("helper", FunctionObject 13) ].

Definition docstrings : gmap nat string :=
  list_to_map [ (1, "convert a code cell"); (3, "str(object) -> string");
                (10, "code, my way"); (11, "heading, my way");
                (12, "str(object) -> string") ].

(** A display-data output with a bitmap first, then a payload under the tag
    [jpeg], then a text. *)
Definition mixed_output : Node :=
  Dict [("output_type", VStr "display_data"); ("png", VStr "aGk=");
        ("jpeg", VStr "aGk="); ("text", VStr "hello")].

(** * Properties *)

(** ** The string and path functions on small inputs *)

Example pad2_values :
  map pad2 [0; 7; 10; 99; 100; 1234] = ["00"; "07"; "10"; "99"; "100"; "1234"].
Proof. reflexivity. Qed.

Example path_split_values :
  map path_split ["a/b/nb.ipynb"; "nb.ipynb"; "/nb.ipynb"; "a//b"; "a/b/"] =
  [("a/b", "nb.ipynb"); (EmptyString, "nb.ipynb"); ("/", "nb.ipynb");
   ("a", "b"); ("a/b", EmptyString)].
Proof. reflexivity. Qed.

Example path_splitext_values :
  map path_splitext ["nb.ipynb"; ".hidden"; "a.b/c"; "x.tar.gz"; "a."] =
  [("nb", ".ipynb"); (".hidden", EmptyString); ("a.b/c", EmptyString);
   ("x.tar", ".gz"); ("a", ".")].
Proof. reflexivity. Qed.

Example path_join_values :
  [path_join "a" "b"; path_join "a/" "b"; path_join EmptyString "b";
   path_join "a" "/b"] = ["a/b"; "a/b"; "b"; "/b"].
Proof. reflexivity. Qed.

Example asset_dir_values :
  map asset_dir ["nb.ipynb"; "work/nb.ipynb"; "/nb.v2.ipynb"] =
  ["nb_files"; "work/nb_files"; "/nb.v2_files"].
Proof. reflexivity. Qed.

Example str_split_values :
  str_split nl_char EmptyString = [EmptyString] /\
  str_split nl_char ("a" +:+ nl +:+ "b" +:+ nl) = ["a"; "b"; EmptyString].
Proof. split; reflexivity. Qed.

Example remove_marker_values :
  remove_marker "/files/" 0 "see /files/a.png and /files/b.png" =
  "see a.png and b.png".
Proof. reflexivity. Qed.

Example b64decode_strict_values :
  map b64decode_strict ["aGk="; "aGVsbG8h"; "a"] =
  [Some "hi"; Some "hello!"; None].
Proof. reflexivity. Qed.

(** ** Numerals and figure names *)

Lemma str_length_app (s1 s2 : string) :
  String.length (s1 +:+ s2) = String.length s1 + String.length s2.
Proof. induction s1 as [|a s1 IH]; simpl; [done|]. by rewrite IH. Qed.

Lemma digit_value_digit d : d < 10 -> digit_value (digit d) = d.
Proof.
  intros Hd. unfold digit_value, digit.
  rewrite nat_ascii_embedding by lia. lia.
Qed.

Lemma is_digit_digit d : d < 10 -> is_digit (digit d) = true.
Proof.
  intros Hd. unfold is_digit, digit.
  rewrite nat_ascii_embedding by lia.
  apply andb_true_intro. split; apply Nat.leb_le; lia.
Qed.

Lemma read_decimal_acc_app acc s1 s2 :
  read_decimal_acc acc (s1 +:+ s2) = read_decimal_acc (read_decimal_acc acc s1) s2.
Proof. revert acc. induction s1 as [|a s1 IH]; intros acc; simpl; [done|]. apply IH. Qed.

Lemma decimal_fuel_S fuel n :
  decimal_fuel (S fuel) n =
  if n <? 10 then String (digit n) EmptyString
  else decimal_fuel fuel (n / 10) +:+ String (digit (n mod 10)) EmptyString.
Proof. reflexivity. Qed.

Lemma read_decimal_fuel fuel n :
  n < fuel -> read_decimal (decimal_fuel fuel n) = n.
Proof.
  unfold read_decimal. revert n.
  induction fuel as [|fuel IH]; intros n Hn; [lia|].
  rewrite decimal_fuel_S. destruct (Nat.ltb_spec n 10) as [Hlt|Hge].
  - cbn [read_decimal_acc]. rewrite digit_value_digit by done. lia.
  - rewrite read_decimal_acc_app, IH.
    + cbn [read_decimal_acc].
      rewrite digit_value_digit by (apply Nat.mod_upper_bound; lia).
      pose proof (Nat.div_mod_eq n 10). lia.
    + apply Nat.lt_le_trans with n; [|lia]. apply Nat.div_lt; lia.
Qed.

Lemma read_decimal_zeros k s : read_decimal (zeros k +:+ s) = read_decimal s.
Proof.
  unfold read_decimal. rewrite read_decimal_acc_app. f_equal.
  induction k as [|k IH]; simpl; [done|]. apply IH.
Qed.

Lemma read_decimal_pad2 n : read_decimal (pad2 n) = n.
Proof.
  unfold pad2, decimal. rewrite read_decimal_zeros.
  apply read_decimal_fuel. lia.
Qed.

Lemma all_digits_app s1 s2 :
  all_digits (s1 +:+ s2) = all_digits s1 && all_digits s2.
Proof.
  induction s1 as [|a s1 IH]; simpl; [done|].
  by rewrite IH, andb_assoc.
Qed.

Lemma all_digits_decimal_fuel fuel n : all_digits (decimal_fuel fuel n) = true.
Proof.
  revert n. induction fuel as [|fuel IH]; intros n; [done|].
  rewrite decimal_fuel_S. destruct (Nat.ltb_spec n 10) as [Hlt|Hge].
  - cbn [all_digits]. by rewrite is_digit_digit.
  - rewrite all_digits_app, IH. cbn [all_digits].
    rewrite is_digit_digit; [done|]. apply Nat.mod_upper_bound; lia.
Qed.

Lemma all_digits_pad2 n : all_digits (pad2 n) = true.
Proof.
  unfold pad2. rewrite all_digits_app.
  apply andb_true_intro. split; [|apply all_digits_decimal_fuel].
  induction (2 - _) as [|k IH]; simpl; [done|]. apply IH.
Qed.

Lemma take_digits_app d a rest :
  all_digits d = true -> is_digit a = false ->
  take_digits (d +:+ String a rest) = d.
Proof.
  intros Hd Ha. induction d as [|b d IH]; simpl in *.
  - by rewrite Ha.
  - apply andb_prop in Hd as [Hb Hd]. rewrite Hb. by rewrite IH.
Qed.

(** The index can be read back from the name of a figure. *)
Lemma figure_name_inj root i j fmt1 fmt2 :
  figure_name root i fmt1 = figure_name root j fmt2 -> i = j.
Proof.
  unfold figure_name. intros H.
  apply String.app_inj, (String.app_inj "_fig_") in H.
  apply (f_equal take_digits) in H.
  change ("." +:+ fmt1) with (String dot fmt1) in H.
  change ("." +:+ fmt2) with (String dot fmt2) in H.
  rewrite !take_digits_app in H by (apply all_digits_pad2 || done).
  apply (f_equal read_decimal) in H. by rewrite !read_decimal_pad2 in H.
Qed.

Lemma startswith_figure_name root i fmt :
  startswith slash (figure_name root i fmt) = startswith slash root.
Proof. unfold figure_name. by destruct root. Qed.

Lemma path_join_figure_inj dir root i j fmt1 fmt2 :
  path_join dir (figure_name root i fmt1) = path_join dir (figure_name root j fmt2) ->
  i = j.
Proof.
  unfold path_join. rewrite !startswith_figure_name.
  destruct (startswith slash root); [apply figure_name_inj|].
  destruct (is_empty dir || endswith slash dir); intros H.
  - apply String.app_inj in H. by apply figure_name_inj in H.
  - apply String.app_inj, (String.app_inj "/") in H. by apply figure_name_inj in H.
Qed.

Lemma length_decimal_fuel_ge1 fuel n :
  n < fuel -> 1 <= String.length (decimal_fuel fuel n).
Proof.
  destruct fuel as [|fuel]; [lia|]. intros _. rewrite decimal_fuel_S.
  destruct (n <? 10); [simpl; lia|]. rewrite str_length_app. simpl. lia.
Qed.

Lemma length_decimal_small n : n < 10 -> String.length (decimal n) = 1.
Proof.
  intros Hn. unfold decimal. rewrite decimal_fuel_S.
  by destruct (Nat.ltb_spec n 10); [|lia].
Qed.

Lemma length_decimal_two n : 10 <= n < 100 -> String.length (decimal n) = 2.
Proof.
  intros Hn. unfold decimal. rewrite decimal_fuel_S.
  destruct (Nat.ltb_spec n 10); [lia|].
  rewrite str_length_app. cbn [String.length].
  destruct n as [|n]; [lia|]. rewrite decimal_fuel_S.
  assert (S n / 10 < 10) by (apply Nat.Div0.div_lt_upper_bound; lia).
  destruct (Nat.ltb_spec (S n / 10) 10); [done|lia].
Qed.

Lemma length_decimal_large n : 100 <= n -> 3 <= String.length (decimal n).
Proof.
  intros Hn. unfold decimal. rewrite decimal_fuel_S.
  destruct (Nat.ltb_spec n 10); [lia|].
  rewrite str_length_app. cbn [String.length].
  destruct n as [|n]; [lia|]. rewrite decimal_fuel_S.
  assert (10 <= S n / 10) by (apply Nat.div_le_lower_bound; lia).
  destruct (Nat.ltb_spec (S n / 10) 10); [lia|].
  rewrite str_length_app. cbn [String.length].
  assert (S n / 10 / 10 < n).
  { apply Nat.Div0.div_lt_upper_bound.
    apply Nat.Div0.div_lt_upper_bound. lia. }
  pose proof (length_decimal_fuel_ge1 n (S n / 10 / 10)). lia.
Qed.


(** ** The monad *)

Lemma bind_ret_r {St A} (m : M St A) (s : St) : bind m ret s = m s.
Proof. unfold bind, ret. by destruct (m s). Qed.

Lemma bind_assoc {St A B C} (m : M St A) (k : A -> M St B) (h : B -> M St C) s :
  bind (bind m k) h s = bind m (fun a => bind (k a) h) s.
Proof. unfold bind. by destruct (m s). Qed.

Lemma bind_ext {St A B} (m : M St A) (k1 k2 : A -> M St B) s :
  (forall a s', k1 a s' = k2 a s') -> bind m k1 s = bind m k2 s.
Proof. intros H. unfold bind. destruct (m s); auto. Qed.

Lemma mapM_ext {St A B} (f g : A -> M St B) l s :
  (forall a s', f a s' = g a s') -> mapM f l s = mapM g l s.
Proof.
  intros H. revert s. induction l as [|a l IH]; intros s; simpl; [done|].
  unfold bind. rewrite H. destruct (g a s) as [b s'|e s']; [|done].
  by rewrite IH.
Qed.

Lemma mapM_app {St A B} (f : A -> M St B) l1 l2 s :
  mapM f (l1 ++ l2) s =
  (bs1 <- mapM f l1 ;; bs2 <- mapM f l2 ;; ret (bs1 ++ bs2))%py s.
Proof.
  revert s. induction l1 as [|a l1 IH]; intros s; simpl.
  - unfold bind, ret. by destruct (mapM f l2 s).
  - unfold bind, ret in *. destruct (f a s) as [b s1|e s1]; [|done].
    rewrite IH. destruct (mapM f l1 s1) as [bs1 s2|e s2]; [|done].
    by destruct (mapM f l2 s2).
Qed.


Section Properties.

Set Default Proof Using "Type".

Context {lib : Library}.

(** ** Attribute lookup *)



Lemma assoc_app {A} name (l1 l2 : list (string * A)) :
  assoc name (l1 ++ l2) =
  match assoc name l1 with Some v => Some v | None => assoc name l2 end.
Proof.
  induction l1 as [|[k v] l1 IH]; simpl; [done|].
  by destruct (String.eqb name k).
Qed.

(** No method with a body of its own is named for a display format or for
    an image type. *)
Lemma getattr_display_format self tag :
  getattr self ("render_display_format_" +:+ tag) =
  getattr_abstract self ("render_display_format_" +:+ tag).
Proof.
  unfold getattr, getattr_abstract.
  destruct (attrs self !! _); [done|].
  rewrite assoc_app. by destruct (assoc _ abstract_methods).
Qed.


(** ** Assembly of the converted text *)

Lemma lift_bind {A B} (m : M Session A) (k : A -> M Session B) st :
  lift (bind m k) st = bind (lift m) (fun a => lift (k a)) st.
Proof.
  unfold lift, bind. by destruct (m (session st)).
Qed.

Lemma cells_loop_mapM self i j cells acc st :
  cells_loop self i j cells acc st =
  (per_cell <- mapM (fun '(i, j, cell) => convert_cell self i j cell)
                    (imap (fun k cell => (i, j + k, cell)) cells) ;;
   ret (acc ++ per_cell))%py st.
Proof.
  revert j acc st. induction cells as [|cell cells IH]; intros j acc st.
  - simpl. unfold bind, ret. by rewrite app_nil_r.
  - simpl. rewrite Nat.add_0_r. unfold bind at 1 2 3.
    destruct (convert_cell self i j cell st) as [converted st1|e st1]; [|done].
    rewrite IH. unfold bind, ret.
    rewrite (imap_ext _ (fun k cell0 => (i, j + S k, cell0))
               cells) by (intros; simpl; f_equal; f_equal; lia).
    destruct (mapM _ _ st1) as [per_cell st2|e st2]; [|done].
    by rewrite <- app_assoc.
Qed.

Lemma worksheets_loop_mapM self i worksheets acc st :
  worksheets_loop self i worksheets acc st =
  (per_cell <- mapM (fun '(i, j, cell) => convert_cell self i j cell)
                    (concat (imap (fun k cells =>
                                     imap (fun j cell => (i + k, j, cell)) cells)
                                  worksheets)) ;;
   ret (acc ++ per_cell))%py st.
Proof.
  revert i acc st.
  induction worksheets as [|cells worksheets IH]; intros i acc st.
  - simpl. unfold bind, ret. by rewrite app_nil_r.
  - simpl. rewrite Nat.add_0_r. unfold bind at 1 2.
    rewrite cells_loop_mapM, mapM_app. simpl. unfold bind, ret.
    destruct (mapM _ (imap _ cells) st) as [first st1|e st1]; [|done].
    rewrite IH. unfold bind, ret.
    rewrite (imap_ext _ (fun k cells0 =>
               imap (fun j cell => (i + S k, j, cell)) cells0) worksheets)
      by (intros; apply imap_ext; intros; simpl; f_equal; f_equal; lia).
    destruct (mapM _ _ st1) as [others st2|e st2]; [|done].
    by rewrite app_assoc.
Qed.

Lemma worksheets_loop_positioned self worksheets st :
  worksheets_loop self 0 worksheets [] st =
  mapM (fun '(i, j, cell) => convert_cell self i j cell)
       (positioned_cells worksheets) st.
Proof.
  rewrite worksheets_loop_mapM. unfold bind, ret, positioned_cells.
  cbn [Nat.add app]. by destruct (mapM _ _ st).
Qed.



(** ** Display data *)


Lemma dispatch_display_format_getattr self tag :
  dispatch_display_format self tag =
  default (default (render_unknown_display self)
                   (getattr self "render_unknown_display"))
          (getattr self ("render_display_format_" +:+ tag)).
Proof.
  unfold dispatch_display_format. rewrite getattr_display_format.
  f_equal. unfold getattr, self_attr. by destruct (attrs self !! _).
Qed.





(** ** Fallbacks *)

(** A display format that resolves to the inherited
    [render_unknown_display] cannot be rendered: the fallback takes two
    arguments and is called with one. *)
Lemma unknown_display_format_raises self tag output s :
  getattr self ("render_display_format_" +:+ tag) = None ->
  attrs self !! "render_unknown_display" = None ->
  call (dispatch_display_format self tag) [ANode output] s = Raise TypeError s.
Proof.
  intros Hnone Hinherit.
  rewrite dispatch_display_format_getattr, Hnone.
  unfold getattr. by rewrite Hinherit.
Qed.

(** C6. [render_stream] is [render_display_format_text] under another
    name: called on the same argument in the same state, the two return
    the same lines and leave the same state, or raise the same
    exception. *)
Theorem render_stream_is_render_display_format_text self output s :
  exists m,
    getattr self "render_display_format_text" = Some m /\
    call (render_stream self) [output] s = call m [output] s.
Proof.
  exists (self_attr self "render_display_format_text" (abstract 1)). split.
  - unfold getattr, self_attr. by destruct (attrs self !! _).
  - reflexivity.
Qed.

Lemma getattr_render_markdown_raw self k :
  str_in k ["markdown"; "raw"] = true ->
  getattr self ("render_" +:+ k) <> None.
Proof.
  unfold str_in. cbn [existsb]. rewrite !orb_true_iff.
  intros [Hk|[Hk|Hk]]; [| |done];
    apply String.eqb_eq in Hk; subst k;
    unfold getattr; by destruct (attrs self !! _).
Qed.

(** One unknown cell: the step of [main_body] for it is one call of the
    inherited [render_unknown]. *)
Lemma unknown_cell_step self i j cell k st :
  node_get cell "cell_type" = Some (VStr k) ->
  getattr self ("render_" +:+ k) = None ->
  attrs self !! "render_unknown" = None ->
  (forall s, exists lines s',
      call (self_attr self "_unknown_lines" (abstract 1))
           [AStr (pformat cell)] s = Ok lines s' /\ log s' = log s) ->
  exists lines s',
    convert_cell self i j cell st = Ok (join nl lines) (mkState s' (nb st)) /\
    call (self_attr self "_unknown_lines" (abstract 1)) [AStr (pformat cell)]
         (set_log (log (session st) ++ ["Unknown cell: " +:+ k]) (session st))
      = Ok lines s' /\
    log s' = log (session st) ++ ["Unknown cell: " +:+ k].
Proof.
  intros Hkind Hnone Hinherit Himpl.
  destruct (Himpl (set_log (log (session st) ++ ["Unknown cell: " +:+ k])
                           (session st))) as (lines & s' & Hcall & Hlog).
  exists lines, s'. split; [|split; [done|by rewrite Hlog]].
  unfold convert_cell. rewrite Hkind.
  destruct (str_in k ["markdown"; "raw"]) eqn:Hmd.
  { by apply (getattr_render_markdown_raw self) in Hmd. }
  unfold bind at 1, ret at 1. unfold bind at 1. rewrite Hmd.
  unfold ret at 1, bind at 1, lift, dispatch, self_attr at 1.
  rewrite Hnone, Hinherit. cbn [default].
  unfold call at 1. cbn [length render_unknown arity body Nat.eqb session].
  rewrite Hkind. unfold bind, logging_warning, modify. cbn [format_s].
  by rewrite Hcall.
Qed.

Lemma positioned_row_cells (i : nat) (cells : list Node) :
  map snd (imap (fun j cell => (i, j, cell)) cells) = cells.
Proof.
  apply list_eq. intros j.
  rewrite list_lookup_fmap, list_lookup_imap. by destruct (cells !! j).
Qed.

Lemma positioned_cells_cells (worksheets : Notebook) :
  map snd (positioned_cells worksheets) = concat worksheets.
Proof.
  unfold positioned_cells.
  enough (Hall : forall (f : nat -> nat),
             map snd (concat (imap (fun i cells =>
                        imap (fun j cell => (f i, j, cell)) cells) worksheets))
             = concat worksheets) by apply (Hall (fun i => i)).
  induction worksheets as [|cells worksheets IH]; intros f; [done|].
  cbn [imap concat]. rewrite map_app, positioned_row_cells. f_equal.
  apply (IH (f ∘ S)).
Qed.

Lemma unknown_cells_mapM self (cells : list (nat * nat * Node)) st :
  attrs self !! "render_unknown" = None ->
  (forall cell, cell ∈ map snd cells ->
     exists k, node_get cell "cell_type" = Some (VStr k) /\
               getattr self ("render_" +:+ k) = None) ->
  (forall data s, exists lines s',
      call (self_attr self "_unknown_lines" (abstract 1)) [AStr data] s
        = Ok lines s' /\ log s' = log s) ->
  exists per_cell st',
    mapM (fun '(i, j, cell) => convert_cell self i j cell) cells st
      = Ok per_cell st' /\
    nb st' = nb st /\
    log (session st') =
      log (session st) ++
      map (fun cell => "Unknown cell: " +:+
                       match node_get cell "cell_type" with
                       | Some v => format_s v
                       | None => EmptyString
                       end) (map snd cells).
Proof.
  intros Hinherit Hkinds Himpl. revert st Hkinds.
  induction cells as [|[[i j] cell] cells IH]; intros st Hkinds.
  - exists [], st. cbn. by rewrite app_nil_r.
  - destruct (Hkinds cell) as (k & Hk & Hnone); [cbn; left|].
    destruct (unknown_cell_step self i j cell k st Hk Hnone Hinherit
                (Himpl (pformat cell))) as (lines & s1 & Hcell & _ & Hlog).
    destruct (IH (mkState s1 (nb st))) as (rest & st' & Hrest & Hnb & Hlog').
    { intros c Hc. apply Hkinds. cbn. by right. }
    exists (join nl lines :: rest), st'. split; [|split; [done|]].
    + cbn [mapM]. unfold bind at 1. rewrite Hcell.
      unfold bind at 1. by rewrite Hrest.
    + rewrite Hlog'. cbn [session map snd]. rewrite Hlog, Hk.
      by rewrite <- app_assoc.
Qed.

(** C4. A cell whose kind has no renderer of its name is handled by one
    call of the inherited [render_unknown], provided the format implements
    [_unknown_lines] so that it returns without logging anything.  The step
    of [main_body] for such a cell does not raise: its lines are those
    [_unknown_lines] gives for the printed cell, the notebook is left as it
    is, and the log gains exactly one warning, which names the kind.  On a
    notebook made of such cells [main_body] returns, and the log has gained
    one warning for each cell, in document order. *)
Theorem unknown_cell_falls_back self :
  attrs self !! "render_unknown" = None ->
  (forall data s, exists lines s',
      call (self_attr self "_unknown_lines" (abstract 1)) [AStr data] s
        = Ok lines s' /\ log s' = log s) ->
  (forall i j cell k st,
      node_get cell "cell_type" = Some (VStr k) ->
      getattr self ("render_" +:+ k) = None ->
      exists lines s',
        convert_cell self i j cell st
          = Ok (join nl lines) (mkState s' (nb st)) /\
        call (self_attr self "_unknown_lines" (abstract 1))
             [AStr (pformat cell)]
             (set_log (log (session st) ++ ["Unknown cell: " +:+ k])
                      (session st))
          = Ok lines s' /\
        log s' = log (session st) ++ ["Unknown cell: " +:+ k]) /\
  (forall cell_separator st worksheets,
      nb st = Some worksheets ->
      (forall cell, cell ∈ concat worksheets ->
         exists k, node_get cell "cell_type" = Some (VStr k) /\
                   getattr self ("render_" +:+ k) = None) ->
      exists body_lines st',
        main_body self cell_separator st = Ok body_lines st' /\
        nb st' = nb st /\
        log (session st') =
          log (session st) ++
          map (fun cell => "Unknown cell: " +:+
                           match node_get cell "cell_type" with
                           | Some v => format_s v
                           | None => EmptyString
                           end) (concat worksheets)).
Proof.
  intros Hinherit Himpl. split.
  - intros i j cell k st Hk Hnone.
    by apply unknown_cell_step.
  - intros cell_separator st worksheets Hnb Hkinds.
    destruct (unknown_cells_mapM self (positioned_cells worksheets) st Hinherit)
      as (per_cell & st' & Hrun & Hnb' & Hlog); [|done|].
    { by rewrite positioned_cells_cells. }
    exists (str_split nl_char (join cell_separator per_cell)), st'.
    split; [|split; [done|by rewrite Hlog, positioned_cells_cells]].
    unfold main_body, bind at 1, get. rewrite Hnb. unfold bind.
    by rewrite worksheets_loop_positioned, Hrun.
Qed.

(** ** Figure extraction *)

Lemma store_Ok dir name content s u s' :
  store dir name content s = Ok u s' ->
  exists d,
    fs s !! dir = Some (Dir d) /\
    contains slash name || is_empty name = false /\
    s' = set_fs (<[dir := Dir (<[name := content]> d)]> (fs s)) s.
Proof.
  unfold store. destruct (fs s !! dir) as [[c|d]|]; [done| |done].
  destruct (contains slash name || is_empty name); [done|].
  intros [= _ <-]. by exists d.
Qed.

Lemma store_state dir name content s :
  figures_counter (state_of (store dir name content s)) = figures_counter s /\
  infile_root (state_of (store dir name content s)) = infile_root s /\
  files_dir (state_of (store dir name content s)) = files_dir s.
Proof.
  unfold store. destruct (fs s !! dir) as [[c|d]|]; [done| |done].
  by destruct (contains slash name || is_empty name).
Qed.

Ltac follow_stores :=
  repeat match goal with
  | |- context [match store ?d ?n ?c ?s with Ok _ _ => _ | Raise _ _ => _ end] =>
      let H := fresh "Hstore" in
      pose proof (store_state d n c s) as H;
      destruct (store d n c s); cbn [state_of] in H |- *
  end;
  intuition congruence.

(** Whatever becomes of the call, the counter has moved by one and the
    names of the session are as they were. *)
Lemma new_figure_state data fmt s :
  figures_counter (state_of (_new_figure data fmt s)) = figures_counter s + 1 /\
  infile_root (state_of (_new_figure data fmt s)) = infile_root s /\
  files_dir (state_of (_new_figure data fmt s)) = files_dir s.
Proof.
  unfold _new_figure, bind, get, modify, ret, raise.
  assert (Hs1 : let s1 := set_figures_counter (figures_counter s + 1) s in
                figures_counter s1 = figures_counter s + 1 /\
                infile_root s1 = infile_root s /\
                files_dir s1 = files_dir s) by done.
  revert Hs1. generalize (set_figures_counter (figures_counter s + 1) s).
  intros s1 Hs1. cbn zeta in Hs1.
  destruct (str_in fmt binary_formats).
  - destruct data as [t|l]; [|done].
    destruct (base64_decode t) as [bytes|]; [|done].
    follow_stores.
  - pose proof (store_state (files_dir s)
      (figure_name (infile_root s) (figures_counter s) fmt) EmptyString s1) as Hopen.
    destruct (store _ _ EmptyString s1) as [u s2|e s2]; cbn [state_of] in Hopen |- *;
      [|intuition congruence].
    destruct data as [t|l]; cbn [state_of]; [|intuition congruence].
    destruct (codecs_encode _ t) as [bytes|]; cbn [state_of];
      [|intuition congruence].
    follow_stores.
Qed.

Lemma store_twice dir name content s u1 s1 u2 s2 :
  store dir name EmptyString s = Ok u1 s1 ->
  store dir name content s1 = Ok u2 s2 ->
  exists d,
    fs s !! dir = Some (Dir d) /\
    contains slash name || is_empty name = false /\
    s2 = set_fs (<[dir := Dir (<[name := content]> d)]> (fs s)) s.
Proof.
  intros Hopen Hwrite.
  apply store_Ok in Hopen as (d & Hd & Hname & ->).
  apply store_Ok in Hwrite as (d' & Hd' & _ & ->).
  cbn [set_fs fs] in Hd'. rewrite lookup_insert_eq in Hd'.
  injection Hd' as <-. exists d. split; [done|]. split; [done|].
  unfold set_fs. cbn. by rewrite !insert_insert_eq.
Qed.

(** A call that returns has stored the decoded or encoded payload under
    the next figure name of the asset directory. *)
Lemma new_figure_Ok data fmt s path s' :
  _new_figure data fmt s = Ok path s' ->
  let name := figure_name (infile_root s) (figures_counter s) fmt in
  path = path_join (files_dir s) name /\
  exists d t bytes,
    data = VStr t /\
    (if str_in fmt binary_formats then base64_decode t
     else codecs_encode (default_encoding s) t) = Some bytes /\
    fs s !! files_dir s = Some (Dir d) /\
    contains slash name || is_empty name = false /\
    s' = set_fs (<[files_dir s := Dir (<[name := bytes]> d)]> (fs s))
                (set_figures_counter (figures_counter s + 1) s).
Proof.
  intros H name. subst name. unfold _new_figure in H.
  unfold bind, get, modify, ret in H.
  set (name := figure_name (infile_root s) (figures_counter s) fmt) in *.
  set (s1 := set_figures_counter (figures_counter s + 1) s) in *.
  destruct (str_in fmt binary_formats).
  - destruct data as [t|l]; [|done].
    destruct (base64_decode t) as [bytes|] eqn:Hdec; [|done].
    destruct (store (files_dir s) name EmptyString s1) as [u1 s2|e s2] eqn:Hopen;
      [|done].
    destruct (store (files_dir s) name bytes s2) as [u2 s3|e s3] eqn:Hwrite;
      [|done].
    injection H as <- <-. split; [done|].
    destruct (store_twice _ _ _ _ _ _ _ _ Hopen Hwrite) as (d & Hd & Hname & ->).
    by exists d, t, bytes.
  - destruct (store (files_dir s) name EmptyString s1) as [u1 s2|e s2] eqn:Hopen;
      [|done].
    destruct data as [t|l]; [|done].
    destruct (codecs_encode (default_encoding s) t) as [bytes|] eqn:Henc;
      [|done].
    destruct (store (files_dir s) name bytes s2) as [u2 s3|e s3] eqn:Hwrite;
      [|done].
    injection H as <- <-. split; [done|].
    destruct (store_twice _ _ _ _ _ _ _ _ Hopen Hwrite) as (d & Hd & Hname & ->).
    by exists d, t, bytes.
Qed.

(** A run of extractions that completes numbers its figures consecutively
    from the counter it starts with. *)
Lemma extract_all_Ok requests s paths s' :
  extract_all requests s = Ok paths s' ->
  paths = imap (fun k r => path_join (files_dir s)
                   (figure_name (infile_root s) (figures_counter s + k) r.2))
               requests /\
  figures_counter s' = figures_counter s + length requests /\
  infile_root s' = infile_root s /\
  files_dir s' = files_dir s.
Proof.
  unfold extract_all. revert s paths s'.
  induction requests as [|[data fmt] requests IH]; intros s paths s' H.
  - injection H as <- <-. cbn. by rewrite Nat.add_0_r.
  - cbn [mapM] in H. unfold bind at 1 in H. cbn [fst snd] in H.
    pose proof (new_figure_state data fmt s) as (Hc & Hr & Hd).
    destruct (_new_figure data fmt s) as [path s1|e s1] eqn:Hfig; [|done].
    cbn [state_of] in Hc, Hr, Hd. apply new_figure_Ok in Hfig as [-> _].
    unfold bind at 1 in H.
    destruct (mapM _ requests s1) as [rest s2|e s2] eqn:Hrest; [|done].
    injection H as <- <-. apply IH in Hrest as (-> & Hc' & Hr' & Hd').
    rewrite Hc', Hr', Hd', Hc, Hr, Hd. cbn [imap length fst snd].
    rewrite Nat.add_0_r. split; [|split; [lia|done]].
    f_equal. apply imap_ext. intros k r _. cbn.
    by replace (figures_counter s + 1 + k) with (figures_counter s + S k) by lia.
Qed.

(** C5. Every call of the figure extractor, whether it returns or raises,
    leaves the counter exactly one higher; and the paths returned by a run
    of calls in one session are pairwise different, whatever payloads and
    format tags they were made with. *)
Theorem figure_counter_steps_by_one :
  (forall data fmt s,
      figures_counter (state_of (_new_figure data fmt s)) = figures_counter s + 1) /\
  (forall requests s paths s',
      extract_all requests s = Ok paths s' ->
      figures_counter s' = figures_counter s + length requests /\
      NoDup paths).
Proof.
  split; [intros; apply new_figure_state|].
  intros requests s paths s' H.
  apply extract_all_Ok in H as (-> & Hc & _). split; [done|].
  apply NoDup_alt. intros i j path Hi Hj.
  apply list_lookup_imap_Some in Hi as (ri & _ & ->).
  apply list_lookup_imap_Some in Hj as (rj & _ & Heq).
  apply path_join_figure_inj in Heq. lia.
Qed.

Lemma str_in_binary_formats fmt :
  str_in fmt binary_formats = true <->
  fmt = "png" \/ fmt = "jpg" \/ fmt = "pdf".
Proof.
  unfold str_in, binary_formats. cbn [existsb].
  rewrite !orb_true_iff, !String.eqb_eq. intuition discriminate.
Qed.

(** C7. When the extractor returns, the file it names holds the decoded
    payload: for the tags png, jpg and pdf the base64 decoding of the
    payload, so that reading the file back gives the decoded bytes; for
    every other tag the payload itself, not decoded, encoded as text in
    the default encoding of the session. *)
Theorem figure_file_holds_payload payload fmt s path s' :
  _new_figure (VStr payload) fmt s = Ok path s' ->
  let name := figure_name (infile_root s) (figures_counter s) fmt in
  path = path_join (files_dir s) name /\
  (fmt = "png" \/ fmt = "jpg" \/ fmt = "pdf" ->
   exists bytes,
     base64_decode payload = Some bytes /\
     read_file (files_dir s) name s' = Some bytes) /\
  (~ (fmt = "png" \/ fmt = "jpg" \/ fmt = "pdf") ->
   exists text,
     codecs_encode (default_encoding s) payload = Some text /\
     read_file (files_dir s) name s' = Some text).
Proof.
  intros H name. apply new_figure_Ok in H as [Hpath H].
  destruct H as (d & t & bytes & [= <-] & Hbytes & Hd & _ & ->).
  fold name. split; [done|].
  assert (Hread : read_file (files_dir s) name
            (set_fs (<[files_dir s := Dir (<[name := bytes]> d)]> (fs s))
                    (set_figures_counter (figures_counter s + 1) s))
          = Some bytes).
  { unfold read_file. cbn [set_fs fs]. by rewrite !lookup_insert_eq. }
  rewrite Hread.
  destruct (str_in fmt binary_formats) eqn:Hbin.
  - apply str_in_binary_formats in Hbin. split; [eauto|]. by intros [].
  - split; [|eauto]. intros Htag.
    apply str_in_binary_formats in Htag. congruence.
Qed.

(** C10. The name of a figure carries the value the counter had when the
    extractor was called: in a run that starts with the counter at [c],
    call number [k], counted from zero, returns the path of
    [<root>_fig_<c + k>.<tag>], so the first figure of a new session is
    number [00].  The number is padded with zeros to two digits below one
    hundred and printed in full, with three digits or more, from one
    hundred on. *)
Theorem figure_names_count_from_zero :
  (forall requests s paths s' k payload fmt,
      extract_all requests s = Ok paths s' ->
      requests !! k = Some (payload, fmt) ->
      paths !! k =
        Some (path_join (files_dir s)
                (figure_name (infile_root s) (figures_counter s + k) fmt))) /\
  pad2 0 = "00" /\
  (forall n, n < 100 -> String.length (pad2 n) = 2) /\
  (forall n, 100 <= n -> pad2 n = decimal n /\ 3 <= String.length (pad2 n)).
Proof.
  split; [|split; [done|split]].
  - intros requests s paths s' k payload fmt H Hk.
    apply extract_all_Ok in H as (-> & _).
    by rewrite list_lookup_imap, Hk.
  - intros n Hn. unfold pad2. rewrite str_length_app.
    destruct (Nat.lt_ge_cases n 10) as [Hsmall|Hbig].
    + by rewrite length_decimal_small.
    + by rewrite length_decimal_two.
  - intros n Hn. pose proof (length_decimal_large n Hn) as Hlen.
    assert (Hpad : pad2 n = decimal n).
    { unfold pad2. by replace (2 - String.length (decimal n)) with 0 by lia. }
    by rewrite Hpad.
Qed.

(** ** The notebook during a conversion *)








(** ** The asset directory *)

Lemma init_Ok infile s u s' :
  __init__ infile s = Ok u s' ->
  files_dir s' = asset_dir infile /\
  infile_root s' = doc_root infile /\
  figures_counter s' = figures_counter s /\
  ((isdir (asset_dir infile) s = true /\ fs s' = fs s) \/
   (fs s !! asset_dir infile = None /\
    fs s' = <[asset_dir infile := Dir ∅]> (fs s))).
Proof.
  unfold __init__, asset_dir, doc_root.
  destruct (path_split infile) as [dir root]. cbn [fst snd].
  set (files := path_join dir ((path_splitext root).1 +:+ "_files")).
  unfold bind, modify, get, ret.
  change (isdir files (set_infile_dir dir (set_infile infile s)))
    with (isdir files s).
  destruct (isdir files s) eqn:Hdir; cbn [negb].
  - intros [= _ <-]. cbn. repeat split; auto.
  - unfold mkdir. cbn [fs set_infile_dir set_infile].
    destruct (fs s !! files) eqn:Hlook; [done|].
    intros [= _ <-]. cbn. repeat split; auto.
Qed.

Lemma listdir_nil (d : gmap string string) :
  is_nil (map fst (map_to_list d)) = true <-> d = ∅.
Proof.
  split.
  - destruct (map_to_list d) eqn:Hl; [|done]. intros _.
    by apply map_to_list_empty_iff.
  - intros ->. by rewrite map_to_list_empty.
Qed.

(** Tear-down removes the asset directory when it is an empty directory
    and does nothing otherwise. *)
Lemma del_spec s :
  __del__ s =
  Ok tt (match fs s !! files_dir s with
         | Some (Dir d) =>
             if decide (d = ∅) then set_fs (delete (files_dir s) (fs s)) s else s
         | _ => s
         end).
Proof.
  unfold __del__, bind, get, isdir, listdir, rmdir, ret.
  destruct (fs s !! files_dir s) as [[c|d]|] eqn:Hlook; [done| |done].
  rewrite Hlook.
  destruct (decide (d = ∅)) as [->|Hne].
  - rewrite map_to_list_empty. cbn. rewrite Hlook.
    by destruct (decide _).
  - destruct (is_nil _) eqn:Hnil; [|done].
    by apply listdir_nil in Hnil.
Qed.

Lemma extract_all_dir requests :
  forall s paths s' d,
    extract_all requests s = Ok paths s' ->
    fs s !! files_dir s = Some (Dir d) ->
    numbered_below (infile_root s) (figures_counter s) d ->
    exists d',
      fs s' !! files_dir s = Some (Dir d') /\
      size d' = size d + length requests.
Proof.
  unfold extract_all.
  induction requests as [|[data fmt] requests IH]; intros s paths s' d H Hd Hnum.
  - injection H as _ <-. exists d. split; [done|]. simpl; lia.
  - cbn [mapM fst snd] in H. unfold bind at 1 in H.
    destruct (_new_figure data fmt s) as [path s1|e s1] eqn:Hfig; [|done].
    apply new_figure_Ok in Hfig as [_ (d0 & t & bytes & _ & _ & Hd0 & _ & ->)].
    rewrite Hd in Hd0. injection Hd0 as <-.
    unfold bind at 1 in H.
    set (name := figure_name (infile_root s) (figures_counter s) fmt) in *.
    destruct (mapM _ requests _) as [rest s2|e s2] eqn:Hrest; [|done].
    injection H as _ <-.
    apply (IH _ _ _ (<[name := bytes]> d)) in Hrest.
    + destruct Hrest as (d' & Hd' & Hsize). exists d'. split; [done|].
      rewrite Hsize, map_size_insert_None; [simpl; lia|].
      destruct (d !! name) eqn:Hin; [|done].
      destruct (Hnum name) as (k & f & Hk & Heq); [by eexists|].
      apply figure_name_inj in Heq. lia.
    + cbn. by rewrite lookup_insert_eq.
    + cbn. intros n Hn. destruct (decide (n = name)) as [->|Hne].
      * exists (figures_counter s), fmt. split; [lia|done].
      * rewrite lookup_insert_ne in Hn by done.
        destruct (Hnum n Hn) as (k & f & Hk & Heq).
        exists k, f. split; [lia|done].
Qed.

(** C8, as amended.  Set-up leaves the asset directory in existence,
    creating it when it was absent and touching nothing when it was there;
    tear-down removes it exactly when it is an empty directory.  A session
    that begins with the directory absent or empty therefore leaves no
    directory behind when it extracted no figure, and leaves the directory
    with exactly as many files as figures when it extracted some. *)
Theorem asset_directory_life_cycle :
  (forall infile s u s1,
      __init__ infile s = Ok u s1 ->
      files_dir s1 = asset_dir infile /\
      isdir (asset_dir infile) s1 = true /\
      (isdir (asset_dir infile) s = true -> fs s1 = fs s)) /\
  (forall s, exists s1,
      __del__ s = Ok tt s1 /\
      (isdir (files_dir s) s1 = false <->
       isdir (files_dir s) s = false \/
       dir_listing (files_dir s) s = Some ∅)) /\
  (forall infile requests files records paths s',
      files !! asset_dir infile = None \/
      files !! asset_dir infile = Some (Dir ∅) ->
      session_run infile requests (class_defaults files records) = Ok paths s' ->
      (requests = [] -> fs s' !! asset_dir infile = None) /\
      (requests <> [] ->
       exists d, fs s' !! asset_dir infile = Some (Dir d) /\
                 size d = length requests)).
Proof.
  split; [|split].
  - intros infile s u s1 H.
    apply init_Ok in H as (Hdir & _ & _ & [[Hwas Hfs]|[Hnone Hfs]]).
    + split; [done|]. split; [|done]. unfold isdir in *. by rewrite Hfs.
    + split; [done|]. split.
      * unfold isdir. by rewrite Hfs, lookup_insert_eq.
      * unfold isdir. by rewrite Hnone.
  - intros s. eexists. split; [apply del_spec|].
    unfold isdir, dir_listing.
    destruct (fs s !! files_dir s) as [[c|d]|] eqn:Hlook.
    + rewrite Hlook. intuition congruence.
    + destruct (decide (d = ∅)) as [->|Hne].
      * cbn. rewrite lookup_delete_eq. intuition congruence.
      * rewrite Hlook. intuition congruence.
    + rewrite Hlook. intuition congruence.
  - intros infile requests files records paths s' Hstart H.
    unfold session_run in H. unfold bind at 1 in H.
    destruct (__init__ infile _) as [u s1|e s1] eqn:Hinit; [|done].
    apply init_Ok in Hinit as (Hdir & Hroot & Hcount & Hfs).
    cbn [class_defaults fs figures_counter isdir] in *.
    assert (Hempty : fs s1 !! files_dir s1 = Some (Dir ∅)).
    { rewrite Hdir. destruct Hfs as [[Hwas ->]|[_ ->]].
      - destruct Hstart as [Hs|Hs]; [|done].
        unfold isdir in Hwas. cbn in Hwas. by rewrite Hs in Hwas.
      - by rewrite lookup_insert_eq. }
    unfold bind at 1 in H.
    destruct (extract_all requests s1) as [paths1 s2|e s2] eqn:Hext; [|done].
    pose proof (extract_all_Ok _ _ _ _ Hext) as (_ & _ & _ & Hdir2).
    apply (extract_all_dir _ _ _ _ ∅) in Hext; [|done|].
    2: { intros name [x Hx]. by rewrite lookup_empty in Hx. }
    destruct Hext as (d' & Hd' & Hsize). rewrite map_size_empty in Hsize.
    unfold bind at 1 in H. rewrite del_spec in H. unfold ret in H.
    injection H as _ <-. rewrite Hdir2, Hd', <- Hdir.
    split.
    + intros ->. assert (d' = ∅) as -> by (by apply map_size_empty_iff).
      destruct (decide _); [|done]. cbn. by rewrite lookup_delete_eq.
    + intros Hne. exists d'. split; [|done].
      destruct (decide (d' = ∅)) as [->|_]; [|done].
      rewrite map_size_empty in Hsize. by destruct requests.
Qed.

(** ** Lines and text *)

Lemma str_split_nonempty c s : str_split c s <> [].
Proof.
  destruct s as [|a s]; cbn [str_split]; [done|].
  destruct (Ascii.eqb a c); [done|]. by destruct (str_split c s).
Qed.

Lemma str_split_no_sep c s :
  Forall (fun line => contains c line = false) (str_split c s).
Proof.
  induction s as [|a s IH]; cbn [str_split].
  - by repeat constructor.
  - destruct (Ascii.eqb a c) eqn:Hac; [by constructor|].
    destruct (str_split c s) as [|field fields].
    { constructor; [|constructor]. cbn [contains]. by rewrite Hac. }
    inversion IH as [|? ? Hfield Hfields]; subst.
    constructor; [|done]. cbn [contains]. by rewrite Hac.
Qed.

Lemma join_cons sep line lines :
  lines <> [] -> join sep (line :: lines) = line +:+ sep +:+ join sep lines.
Proof. by destruct lines. Qed.

Lemma join_str_split s : join nl (str_split nl_char s) = s.
Proof.
  induction s as [|a s IH]; cbn [str_split]; [done|].
  pose proof (str_split_nonempty nl_char s) as Hne.
  destruct (Ascii.eqb_spec a nl_char) as [->|Hneq].
  - rewrite join_cons by done. by rewrite IH.
  - destruct (str_split nl_char s) as [|field fields]; [done|].
    destruct fields as [|field' fields].
    + cbn in *. by rewrite IH.
    + rewrite join_cons in IH by done. rewrite join_cons by done.
      by rewrite <- IH.
Qed.

Lemma str_split_plain c line :
  contains c line = false -> str_split c line = [line].
Proof.
  induction line as [|a line IH]; cbn [contains str_split]; [done|].
  intros [Hac Hline]%orb_false_elim. rewrite Hac, IH; done.
Qed.

Lemma str_split_app c line rest :
  contains c line = false ->
  str_split c (line +:+ String c rest) = line :: str_split c rest.
Proof.
  induction line as [|a line IH]; simpl.
  - intros _. by rewrite Ascii.eqb_refl.
  - intros [Hac Hline]%orb_false_elim. rewrite Hac, IH; done.
Qed.

Lemma str_split_join lines :
  lines <> [] ->
  Forall (fun line => contains nl_char line = false) lines ->
  str_split nl_char (join nl lines) = lines.
Proof.
  induction lines as [|line lines IH]; [done|]. intros _ Hall.
  inversion Hall as [|? ? Hline Hlines]; subst.
  destruct lines as [|line' lines].
  - by apply str_split_plain.
  - rewrite join_cons by done.
    change (nl +:+ join nl (line' :: lines))
      with (String nl_char (join nl (line' :: lines))).
    rewrite str_split_app by done. by rewrite IH.
Qed.

(** X1. The body that [main_body] returns is a list of at least one line,
    none of which contains a newline, whatever the renderers returned and
    whatever the separator is; joining it with newlines and splitting
    again gives it back. *)
Theorem main_body_lines_are_plain self cell_separator st body_lines st' :
  main_body self cell_separator st = Ok body_lines st' ->
  body_lines <> [] /\
  Forall (fun line => contains nl_char line = false) body_lines /\
  str_split nl_char (join nl body_lines) = body_lines.
Proof.
  unfold main_body, bind at 1, get.
  destruct (nb st) as [worksheets|]; [|done]. unfold bind.
  destruct (worksheets_loop self 0 worksheets [] st) as [cc st1|e st1]; [|done].
  intros [= <- _].
  pose proof (str_split_nonempty nl_char (join cell_separator cc)) as Hne.
  pose proof (str_split_no_sep nl_char (join cell_separator cc)) as Hplain.
  split; [done|]. split; [done|]. by apply str_split_join.
Qed.

Lemma lift_optional st (m : method) :
  m = optional_header \/ m = optional_footer ->
  lift (call m []) st = Ok [] st.
Proof. intros [->| ->]; by destruct st. Qed.

(** X2. For a format that keeps the empty header and footer of the base
    class, the text [convert] returns is the texts of the cells, in
    document order, joined by the separator: splitting the body into lines
    and joining the lines again changes nothing. *)
Theorem convert_default_joins_cells self cell_separator st worksheets :
  attrs self !! "optional_header" = None ->
  attrs self !! "optional_footer" = None ->
  nb st = Some worksheets ->
  convert self cell_separator st =
  (per_cell <- mapM (fun '(i, j, cell) => convert_cell self i j cell)
                    (positioned_cells worksheets) ;;
   ret (join cell_separator per_cell))%py st.
Proof.
  intros Hheader Hfooter Hnb. unfold convert, self_attr.
  rewrite Hheader, Hfooter. cbn [default]. unfold bind at 1.
  rewrite lift_optional by auto. unfold bind at 1.
  unfold main_body, bind at 1, get. rewrite Hnb. unfold bind at 1.
  rewrite worksheets_loop_positioned. unfold bind at 2.
  destruct (mapM _ _ st) as [per_cell st1|e st1]; [|done].
  unfold ret at 1, bind. rewrite lift_optional by auto.
  unfold ret. cbn [app]. by rewrite app_nil_r, join_str_split.
Qed.

(** X3. A conversion that returns has run the header, the body and the
    footer in that order, and when the header and footer lines contain no
    newline, splitting the returned text at newlines gives back exactly
    the header lines, the body lines and the footer lines. *)
Theorem convert_text_splits_into_lines self cell_separator st out st' :
  convert self cell_separator st = Ok out st' ->
  exists header st1 body_lines st2 footer,
    lift (call (self_attr self "optional_header" optional_header) []) st
      = Ok header st1 /\
    main_body self cell_separator st1 = Ok body_lines st2 /\
    lift (call (self_attr self "optional_footer" optional_footer) []) st2
      = Ok footer st' /\
    (Forall (fun line => contains nl_char line = false) header ->
     Forall (fun line => contains nl_char line = false) footer ->
     str_split nl_char out = header ++ body_lines ++ footer).
Proof.
  unfold convert. unfold bind at 1.
  destruct (lift _ st) as [header st1|e st1] eqn:Hh; [|done].
  unfold bind at 1.
  destruct (main_body self cell_separator st1) as [body_lines st2|e st2]
    eqn:Hbody; [|done].
  unfold bind at 1.
  destruct (lift _ st2) as [footer st3|e st3] eqn:Hf; [|done].
  intros [= <- <-]. exists header, st1, body_lines, st2, footer.
  split; [done|]. split; [done|]. split; [done|].
  intros Hheader Hfooter.
  apply main_body_lines_are_plain in Hbody as (Hne & Hplain & _).
  cbn [app]. rewrite <- app_assoc. apply str_split_join.
  - destruct header; [|done]. by destruct body_lines.
  - rewrite !Forall_app. auto.
Qed.

(** X4. On a notebook without cells, whether it has no worksheet or only
    empty ones, [main_body] returns one empty line and changes nothing. *)
Theorem main_body_of_no_cells self cell_separator st worksheets :
  nb st = Some worksheets ->
  concat worksheets = [] ->
  main_body self cell_separator st = Ok [EmptyString] st.
Proof.
  intros Hnb Hnone. unfold main_body, bind at 1, get. rewrite Hnb.
  unfold bind. rewrite worksheets_loop_positioned.
  pose proof (positioned_cells_cells worksheets) as Hcells.
  rewrite Hnone in Hcells. apply fmap_nil_inv in Hcells. by rewrite Hcells.
Qed.

(** X5. A heading or code cell in a format that does not define the
    renderer of its kind is not treated as unknown: the step of
    [main_body] for it raises [NotImplementedError], and nothing has
    changed when it does. *)
Theorem unimplemented_renderer_is_fatal self i j cell k st :
  str_in k ["heading"; "code"] = true ->
  node_get cell "cell_type" = Some (VStr k) ->
  attrs self !! ("render_" +:+ k) = None ->
  convert_cell self i j cell st = Raise NotImplementedError st.
Proof.
  intros Hk Hkind Hnone. unfold convert_cell. rewrite Hkind.
  unfold bind at 1, ret at 1. unfold bind at 1.
  unfold str_in in Hk. cbn [existsb] in Hk.
  apply orb_true_iff in Hk as [Hk|Hk];
    [|apply orb_true_iff in Hk as [Hk|Hk]; [|done]];
    apply String.eqb_eq in Hk; subst k;
    change (str_in _ ["markdown"; "raw"]) with false; cbn iota;
    unfold ret at 1, bind, dispatch, getattr;
    cbn [String.append] in Hnone |- *; rewrite Hnone;
    by destruct st.
Qed.

(** X6. A markdown or raw cell is rewritten before its renderer runs: in a
    format that does not define the renderer, the step raises
    [NotImplementedError] and the notebook already holds the cell as
    [remove_fake_files_url] left it. *)
Theorem failed_rendering_keeps_rewritten_cell self i j cell cell' k st :
  str_in k ["markdown"; "raw"] = true ->
  node_get cell "cell_type" = Some (VStr k) ->
  attrs self !! ("render_" +:+ k) = None ->
  remove_fake_files_url cell = inr cell' ->
  convert_cell self i j cell st =
  Raise NotImplementedError
        (mkState (session st) (update_cell i j cell' <$> nb st)).
Proof.
  intros Hk Hkind Hnone Hstrip. unfold convert_cell. rewrite Hkind.
  unfold bind at 1, ret at 1. unfold bind at 1. rewrite Hk.
  unfold strip_in_place. rewrite Hstrip.
  unfold str_in in Hk. cbn [existsb] in Hk.
  apply orb_true_iff in Hk as [Hk|Hk];
    [|apply orb_true_iff in Hk as [Hk|Hk]; [|done]];
    apply String.eqb_eq in Hk; subst k;
    unfold bind, dispatch, getattr;
    cbn [String.append] in Hnone |- *; by rewrite Hnone.
Qed.

(** X7. [main_body] stops at the first cell whose step raises: it raises
    the same exception, in the state that step left, so that what the
    cells before it did stays done and no later cell is looked at. *)
Theorem main_body_stops_at_first_failure
    self cell_separator st worksheets before i j cell after done st1 e st2 :
  nb st = Some worksheets ->
  positioned_cells worksheets = before ++ (i, j, cell) :: after ->
  mapM (fun '(i, j, cell) => convert_cell self i j cell) before st
    = Ok done st1 ->
  convert_cell self i j cell st1 = Raise e st2 ->
  main_body self cell_separator st = Raise e st2.
Proof.
  intros Hnb Hpos Hbefore Hcell. unfold main_body, bind at 1, get.
  rewrite Hnb. unfold bind at 1.
  rewrite worksheets_loop_positioned, Hpos, mapM_app.
  unfold bind at 1. rewrite Hbefore. cbn [mapM].
  unfold bind at 1 2. by rewrite Hcell.
Qed.

(** ** Figure extraction: success, failure and what is left alone *)

(** X8. The figure extractor returns whenever the asset directory exists,
    the figure name is a plain entry name and the payload decodes (for
    png, jpg, pdf) or encodes (for any other tag): it returns the path of
    the figure, the file holds the bytes, and the counter is one higher.
    A file of that name left in the directory is replaced. *)
Theorem new_figure_succeeds payload fmt s d bytes :
  let name := figure_name (infile_root s) (figures_counter s) fmt in
  fs s !! files_dir s = Some (Dir d) ->
  contains slash name || is_empty name = false ->
  (if str_in fmt binary_formats then base64_decode payload
   else codecs_encode (default_encoding s) payload) = Some bytes ->
  _new_figure (VStr payload) fmt s =
  Ok (path_join (files_dir s) name)
     (set_fs (<[files_dir s := Dir (<[name := bytes]> d)]> (fs s))
             (set_figures_counter (figures_counter s + 1) s)).
Proof.
  intros name Hdir Hname Hbytes. unfold _new_figure.
  unfold bind at 1, get. unfold bind at 1, modify. fold name.
  set (s1 := set_figures_counter (figures_counter s + 1) s).
  assert (Hopen : forall content,
             store (files_dir s) name content s1 =
             Ok tt (set_fs (<[files_dir s := Dir (<[name := content]> d)]> (fs s))
                           s1)).
  { intros content. unfold store. cbn [s1 set_figures_counter fs].
    by rewrite Hdir, Hname. }
  assert (Hwrite : forall content,
             store (files_dir s) name bytes
               (set_fs (<[files_dir s := Dir (<[name := content]> d)]> (fs s))
                       s1) =
             Ok tt (set_fs (<[files_dir s := Dir (<[name := bytes]> d)]> (fs s))
                           s1)).
  { intros content. unfold store. cbn [s1 set_figures_counter set_fs fs].
    rewrite lookup_insert_eq, Hname. cbn.
    by rewrite !insert_insert_eq. }
  destruct (str_in fmt binary_formats).
  - rewrite Hbytes. unfold bind at 1, ret at 1.
    unfold bind at 1. rewrite Hopen. unfold bind. by rewrite Hwrite.
  - unfold bind at 1. rewrite Hopen. rewrite Hbytes.
    unfold bind at 1, ret at 1. unfold bind. by rewrite Hwrite.
Qed.

(** X9. A png, jpg or pdf payload that is not valid base64 makes the
    extractor raise before any file is opened: the file system is as it
    was, but the counter has moved, so the figure number is used up. *)
Theorem new_figure_rejects_bad_base64 payload fmt s :
  str_in fmt binary_formats = true ->
  base64_decode payload = None ->
  _new_figure (VStr payload) fmt s =
  Raise BinasciiError (set_figures_counter (figures_counter s + 1) s).
Proof.
  intros Hfmt Hdec. unfold _new_figure, bind, get, modify.
  by rewrite Hfmt, Hdec.
Qed.

(** X10. For a text tag the file is opened before the payload is encoded:
    when the payload cannot be encoded in the default encoding, the
    extractor raises and leaves an empty file under the figure name. *)
Theorem new_figure_leaves_empty_file payload fmt s d :
  let name := figure_name (infile_root s) (figures_counter s) fmt in
  str_in fmt binary_formats = false ->
  fs s !! files_dir s = Some (Dir d) ->
  contains slash name || is_empty name = false ->
  codecs_encode (default_encoding s) payload = None ->
  exists s',
    _new_figure (VStr payload) fmt s = Raise UnicodeError s' /\
    read_file (files_dir s) name s' = Some EmptyString /\
    figures_counter s' = figures_counter s + 1.
Proof.
  intros name Hfmt Hdir Hname Henc. eexists. split.
  - unfold _new_figure, bind, get, modify. fold name. rewrite Hfmt.
    unfold store at 1. cbn [set_figures_counter fs].
    by rewrite Hdir, Hname, Henc.
  - split; [|done]. unfold read_file. cbn [set_fs fs].
    by rewrite !lookup_insert_eq.
Qed.






(** ** Display data and the figure counter *)

Lemma abstract_methods_abstract name m :
  assoc name abstract_methods = Some m -> m = abstract 1.
Proof.
  unfold abstract_methods. cbn [assoc].
  repeat (destruct (String.eqb name _); [by intros [= <-]|]). done.
Qed.

Lemma call_keeps_figures_counter self m args s :
  keeps_figures_counter self ->
  (exists name, getattr_abstract self name = Some m) \/ m = abstract 1 ->
  figures_counter (state_of (call m args s)) = figures_counter s.
Proof.
  intros Hkeeps Hm. unfold call.
  destruct (length args =? arity m); [|done].
  destruct Hm as [[name Hm]| ->]; [|done].
  unfold getattr_abstract in Hm.
  destruct (attrs self !! name) as [m'|] eqn:Hattr.
  - injection Hm as <-. by apply (Hkeeps name).
  - by apply abstract_methods_abstract in Hm as ->.
Qed.

Lemma image_lines_keep_figures_counter self fmt args s :
  keeps_figures_counter self ->
  figures_counter
    (state_of (call match getattr_abstract self ("_" +:+ fmt +:+ "_lines") with
                    | Some f => f
                    | None => self_attr self "_img_lines" (abstract 1)
                    end args s))
  = figures_counter s.
Proof.
  intros Hkeeps. apply (call_keeps_figures_counter self); [done|].
  destruct (getattr_abstract self _) eqn:Hg; [left; eauto|].
  unfold self_attr. destruct (attrs self !! "_img_lines") eqn:Ha.
  - left. exists "_img_lines". unfold getattr_abstract. by rewrite Ha.
  - by right.
Qed.

Lemma dispatched_keeps_figures_counter self fmt output s :
  keeps_figures_counter self ->
  figures_counter
    (state_of (call (dispatch_display_format self fmt) [ANode output] s))
  = figures_counter s.
Proof.
  intros Hkeeps. unfold dispatch_display_format.
  destruct (getattr_abstract self _) as [m|] eqn:Hg.
  - apply (call_keeps_figures_counter self); eauto.
  - cbn [default]. unfold self_attr.
    destruct (attrs self !! "render_unknown_display") as [m|] eqn:Ha.
    + apply (call_keeps_figures_counter self); [done|].
      left. exists "render_unknown_display".
      unfold getattr_abstract. by rewrite Ha.
    + done.
Qed.

Lemma display_data_loop_counter self output :
  keeps_figures_counter self ->
  forall fmts lines s r,
    display_data_loop self output fmts lines s = r ->
    figures_counter s <= figures_counter (state_of r)
      <= figures_counter s + count_image_tags fmts /\
    (forall v s', r = Ok v s' ->
                  figures_counter s' = figures_counter s + count_image_tags fmts).
Proof.
  intros Hkeeps. induction fmts as [|fmt fmts IH]; intros lines s r Hr.
  { cbn in Hr. subst r. cbn. split; [lia|]. intros v s' [= _ <-]. lia. }
  cbn [display_data_loop count_image_tags] in Hr |- *.
  destruct (str_in fmt image_formats); cbn iota in Hr |- *.
  - unfold bind at 1 in Hr.
    destruct (node_get output fmt) as [payload|];
      [|subst r; cbn; split; [lia|done]].
    unfold ret at 1 in Hr. unfold bind at 1 in Hr.
    pose proof (new_figure_state payload fmt s) as (Hfig & _).
    destruct (_new_figure payload fmt s) as [img_file s1|e s1];
      cbn [state_of] in Hfig; [|subst r; cbn; split; [lia|done]].
    unfold bind at 1 in Hr.
    pose proof (image_lines_keep_figures_counter self fmt [AStr img_file] s1
                  Hkeeps) as Hcall.
    destruct (call _ [AStr img_file] s1) as [new_lines s2|e s2];
      cbn [state_of] in Hcall; [|subst r; cbn; split; [lia|done]].
    destruct (IH _ _ _ Hr) as [Hle Heq].
    split; [lia|]. intros v s' Hv. apply Heq in Hv. lia.
  - destruct (negb (String.eqb fmt "output_type")).
    + unfold bind at 1 in Hr.
      pose proof (dispatched_keeps_figures_counter self fmt output s Hkeeps)
        as Hcall.
      destruct (call _ [ANode output] s) as [new_lines s1|e s1];
        cbn [state_of] in Hcall; [|subst r; cbn; split; [lia|done]].
      destruct (IH _ _ _ Hr) as [Hle Heq].
      split; [lia|]. intros v s' Hv. apply Heq in Hv. lia.
    + destruct (IH _ _ _ Hr) as [Hle Heq]. split; [lia|done].
Qed.

(** X13. In a format whose own methods leave the figure counter alone,
    rendering a display-data output extracts one figure for each image tag
    of the output and no other: when [render_display_data] returns, the
    counter has advanced by the number of image tags, and when it raises,
    by no more than that. *)
Theorem render_display_data_counts_figures self output s :
  keeps_figures_counter self ->
  let r := call (render_display_data self) [ANode output] s in
  figures_counter s <= figures_counter (state_of r)
    <= figures_counter s + count_image_tags (keys output) /\
  (forall lines s', r = Ok lines s' ->
     figures_counter s' = figures_counter s + count_image_tags (keys output)).
Proof.
  intros Hkeeps r.
  by apply (display_data_loop_counter self output Hkeeps (keys output) []).
Qed.

(** X14. Called with two arguments, the inherited
    [render_unknown_display] does for an output what [render_unknown] does
    for a cell: provided the format implements [_unknown_lines] so that it
    returns without logging, the call returns the lines of the printed
    output and logs exactly one warning.  The warning names the
    [output_type] of the output; the second argument has no influence on
    the lines, the state or the warning. *)
Theorem render_unknown_display_names_output_type self output kind type s :
  attrs self !! "render_unknown_display" = None ->
  node_get output "output_type" = Some (VStr kind) ->
  (forall data s0, exists lines s',
      call (self_attr self "_unknown_lines" (abstract 1)) [AStr data] s0
        = Ok lines s' /\ log s' = log s0) ->
  exists lines s',
    call (self_attr self "render_unknown_display" (render_unknown_display self))
         [ANode output; type] s = Ok lines s' /\
    call (self_attr self "_unknown_lines" (abstract 1)) [AStr (pformat output)]
         (set_log (log s ++ ["Unknown output: " +:+ kind]) s) = Ok lines s' /\
    log s' = log s ++ ["Unknown output: " +:+ kind].
Proof.
  intros Hinherit Hkind Himpl.
  destruct (Himpl (pformat output)
              (set_log (log s ++ ["Unknown output: " +:+ kind]) s))
    as (lines & s' & Hcall & Hlog).
  exists lines, s'. split; [|split; [done|by rewrite Hlog]].
  unfold self_attr at 1. rewrite Hinherit. cbn [default]. unfold call at 1.
  cbn [length render_unknown_display arity body Nat.eqb].
  rewrite Hkind. unfold bind, logging_warning, modify. cbn [format_s].
  by rewrite Hcall.
Qed.

(** ** Set-up, tear-down and whole sessions *)

Lemma contains_app c a b :
  contains c (a +:+ b) = contains c a || contains c b.
Proof.
  induction a as [|x a IH]; simpl; [done|]. by rewrite IH, orb_assoc.
Qed.

Lemma is_empty_app a b : is_empty (a +:+ b) = is_empty a && is_empty b.
Proof. by destruct a. Qed.

Lemma cut_after_last_app c p :
  (cut_after_last c p).1 +:+ (cut_after_last c p).2 = p.
Proof.
  induction p as [|a p IH]; [done|]. cbn [cut_after_last].
  destruct (cut_after_last c p) as [h t]. cbn [fst snd] in IH.
  destruct h as [|b h]; cbn [is_empty negb].
  - simpl in IH. subst p. by destruct (Ascii.eqb a c).
  - cbn [fst snd]. by rewrite <- IH.
Qed.

Lemma cut_after_last_tail c p : contains c (cut_after_last c p).2 = false.
Proof.
  induction p as [|a p IH]; [done|]. cbn [cut_after_last].
  destruct (cut_after_last c p) as [h t]. cbn [fst snd] in IH.
  destruct h as [|b h]; cbn [is_empty negb]; [|done].
  destruct (Ascii.eqb a c) eqn:Hac; cbn [fst snd contains]; [done|].
  by rewrite Hac, IH.
Qed.

Lemma cut_after_last_absent c p :
  contains c p = false -> cut_after_last c p = (EmptyString, p).
Proof.
  induction p as [|a p IH]; [done|]. cbn [contains cut_after_last].
  intros [Hac Hp]%orb_false_elim. by rewrite (IH Hp), Hac.
Qed.

Lemma contains_drop_last c s :
  contains c s = false -> contains c (drop_last s) = false.
Proof.
  induction s as [|a s IH]; [done|]. cbn [contains].
  intros [Hac Hs]%orb_false_elim. destruct s as [|b s]; [done|].
  cbn [drop_last contains] in *. by rewrite Hac, (IH Hs).
Qed.

Lemma path_splitext_plain p :
  contains slash p = false -> contains slash (path_splitext p).1 = false.
Proof.
  intros Hp. unfold path_splitext. rewrite (cut_after_last_absent slash p Hp).
  pose proof (cut_after_last_app dot p) as Happ.
  destruct (cut_after_last dot p) as [stem_dot ext]. cbn [fst snd] in Happ.
  destruct (is_empty stem_dot || all_chars dot (drop_last stem_dot)); [done|].
  cbn [fst]. apply contains_drop_last.
  rewrite <- Happ, contains_app in Hp. by apply orb_false_elim in Hp as [? _].
Qed.

Lemma doc_root_plain infile : contains slash (doc_root infile) = false.
Proof.
  unfold doc_root, path_split. apply path_splitext_plain.
  pose proof (cut_after_last_tail slash infile) as Htail.
  by destruct (cut_after_last slash infile).
Qed.




Lemma endswith_app c a b :
  is_empty b = false -> endswith c (a +:+ b) = endswith c b.
Proof.
  intros Hb. induction a as [|x a IH]; [done|]. rewrite <- IH.
  pose proof (is_empty_app a b) as Hab. rewrite Hb, andb_false_r in Hab.
  change (String x a +:+ b) with (String x (a +:+ b)).
  by destruct (a +:+ b).
Qed.

Lemma str_app_assoc a b c : (a +:+ b) +:+ c = a +:+ b +:+ c.
Proof.
  induction a as [|x a IH]; [done|].
  change (String x ((a +:+ b) +:+ c) = String x (a +:+ b +:+ c)).
  by rewrite IH.
Qed.

Lemma asset_dir_shape infile :
  is_empty (asset_dir infile) = false /\
  endswith slash (asset_dir infile) = false.
Proof.
  unfold asset_dir, path_join.
  set (dir := (path_split infile).1). set (root := doc_root infile).
  assert (Hstart : startswith slash (root +:+ "_files") = false).
  { pose proof (doc_root_plain infile) as Hroot. fold root in Hroot.
    destruct root as [|a root]; [done|].
    change (startswith slash (String a root +:+ "_files"))
      with (Ascii.eqb a slash).
    cbn [contains] in Hroot. by apply orb_false_elim in Hroot as [-> _]. }
  rewrite Hstart.
  assert (Hfiles : forall a, endswith slash (a +:+ "_files") = false)
    by (intros a; by rewrite endswith_app).
  destruct (is_empty dir || endswith slash dir).
  - split.
    + rewrite !is_empty_app. cbn. by rewrite !andb_false_r.
    + rewrite <- str_app_assoc. apply Hfiles.
  - split.
    + rewrite !is_empty_app. cbn. by rewrite !andb_false_r.
    + rewrite <- !str_app_assoc. apply Hfiles.
Qed.

(** X15. Set-up never removes or changes what is on the file system: every
    entry that was there is still there afterwards, whether [__init__]
    returns or raises, and the figure counter, the default encoding and
    the log are as they were. *)
Theorem init_keeps_existing_entries infile s :
  let s1 := state_of (__init__ infile s) in
  figures_counter s1 = figures_counter s /\
  default_encoding s1 = default_encoding s /\
  log s1 = log s /\
  forall p e, fs s !! p = Some e -> fs s1 !! p = Some e.
Proof.
  unfold __init__. destruct (path_split infile) as [dir root].
  set (files := path_join dir ((path_splitext root).1 +:+ "_files")).
  unfold bind, modify, get, ret.
  change (isdir files (set_infile_dir dir (set_infile infile s)))
    with (isdir files s).
  destruct (isdir files s); cbn [negb]; [by repeat split|].
  unfold mkdir. cbn [fs set_infile_dir set_infile].
  destruct (fs s !! files) eqn:Hfiles; [by repeat split|].
  cbn. repeat split. intros p e Hp.
  rewrite lookup_insert_ne; [done|]. intros ->. congruence.
Qed.


(** X17. In a session that [__init__] has set up, the paths the figure
    extractor returns are the asset directory of the document, a slash,
    and the figure name built on the base name of the document, numbered
    from the counter on: the figures are named as direct entries of the
    asset directory. *)
Theorem session_figure_paths infile s u s1 requests paths s2 :
  __init__ infile s = Ok u s1 ->
  extract_all requests s1 = Ok paths s2 ->
  paths = imap (fun k r => asset_dir infile +:+ "/" +:+
                           figure_name (doc_root infile)
                                       (figures_counter s + k) r.2)
               requests.
Proof.
  intros Hinit Hext.
  apply init_Ok in Hinit as (Hdir & Hroot & Hcount & _).
  apply extract_all_Ok in Hext as (-> & _).
  rewrite Hdir, Hroot, Hcount. apply imap_ext. intros k r _. cbn beta.
  unfold path_join. rewrite startswith_figure_name.
  pose proof (doc_root_plain infile) as Hplain.
  destruct (asset_dir_shape infile) as [-> ->].
  destruct (doc_root infile) as [|a root]; [done|].
  cbn [contains startswith] in *.
  by apply orb_false_elim in Hplain as [-> _].
Qed.



(** X19. Tear-down never raises: the two guards keep [os.listdir] and
    [os.rmdir] from failing.  It touches no path but the asset directory,
    changes nothing else of the session, and a second tear-down finds
    nothing left to do. *)
Theorem del_is_safe_and_local s :
  exists s1,
    __del__ s = Ok tt s1 /\
    __del__ s1 = Ok tt s1 /\
    (forall p, p <> files_dir s -> fs s1 !! p = fs s !! p) /\
    files_dir s1 = files_dir s /\
    figures_counter s1 = figures_counter s /\
    log s1 = log s.
Proof.
  rewrite del_spec.
  destruct (fs s !! files_dir s) as [[c|d]|] eqn:Hlook.
  - exists s. rewrite del_spec, Hlook. by repeat split.
  - destruct (decide (d = ∅)) as [->|Hne].
    + eexists. split; [done|]. rewrite del_spec. cbn [files_dir set_fs fs].
      rewrite lookup_delete_eq. repeat split.
      intros p Hp. by rewrite lookup_delete_ne.
    + exists s. rewrite del_spec, Hlook.
      destruct (decide (d = ∅)); [done|]. by repeat split.
  - exists s. rewrite del_spec, Hlook. by repeat split.
Qed.

(** ** The display-data loop and the unknown display format *)

Lemma display_data_loop_app self output before rest :
  forall lines s,
    display_data_loop self output (before ++ rest) lines s =
    (lines' <- display_data_loop self output before lines ;;
     display_data_loop self output rest lines')%py s.
Proof.
  induction before as [|fmt before IH]; intros lines s; [done|].
  cbn [app display_data_loop].
  destruct (str_in fmt image_formats); [|destruct (negb _)].
  - rewrite bind_assoc. apply bind_ext; intros payload s0.
    rewrite bind_assoc. apply bind_ext; intros img_file s1.
    rewrite bind_assoc. apply bind_ext; intros new_lines s2. apply IH.
  - rewrite bind_assoc. apply bind_ext; intros new_lines s2. apply IH.
  - apply IH.
Qed.

(** X20. In a format that inherits [render_unknown_display],
    [render_display_data] cannot get past a format tag it has no renderer
    for: having rendered the tags before it, it raises [TypeError] at that
    tag, in the state the earlier tags left, so that their figures stay
    written, nothing is logged for the unknown tag, and the tags after it
    are never looked at. *)
Theorem render_display_data_stops_at_unknown_tag
    self output before fmt after s lines s1 :
  keys output = before ++ fmt :: after ->
  str_in fmt image_formats = false ->
  fmt <> "output_type" ->
  getattr self ("render_display_format_" +:+ fmt) = None ->
  attrs self !! "render_unknown_display" = None ->
  display_data_loop self output before [] s = Ok lines s1 ->
  call (render_display_data self) [ANode output] s = Raise TypeError s1.
Proof.
  intros Hkeys Himage Hfmt Hnone Hinherit Hbefore.
  unfold call. cbn [length render_display_data arity body Nat.eqb].
  rewrite Hkeys, display_data_loop_app. unfold bind at 1. rewrite Hbefore.
  cbn [display_data_loop]. rewrite Himage.
  apply String.eqb_neq in Hfmt. rewrite Hfmt. cbn [negb].
  unfold bind at 1.
  by rewrite (unknown_display_format_raises self fmt output s1).
Qed.
End Properties.

(** * The theorems at work on the plain-text format

    The library functions are those of [sample_library] throughout. *)

(** The body of an empty notebook is one empty line, so the converted text
    of the plain-text format ends with a newline after its banner. *)
Example convert_empty_notebook :
  convert plain_format nl (mkState sample_session (Some [])) =
  Ok ("BEGIN" +:+ nl) (mkState sample_session (Some [])).
Proof. vm_compute. reflexivity. Qed.

(** A display-data output with a bitmap, a text and a drawing: two figure
    files are written, and the drawing goes to the renderer of its own. *)
Example render_display_data_sample :
  let output := Dict [("output_type", VStr "display_data");
                      ("png", VStr "aGk="); ("text", VStr "hello");
                      ("svg", VStr "<svg/>")] in
  match call (render_display_data plain_format) [ANode output] sample_session with
  | Ok lines s =>
      lines = ["image: nb_files/nb_fig_00.png"; "hello";
               "vector image: nb_files/nb_fig_01.svg"] /\
      figures_counter s = 2 /\
      read_file "nb_files" "nb_fig_00.png" s = Some "hi" /\
      read_file "nb_files" "nb_fig_01.svg" s = Some "<svg/>"
  | Raise _ _ => False
  end.
Proof. vm_compute. repeat split; reflexivity. Qed.

(** C3.  A display-data output with a format tag the format has no renderer
    for: the display-format dispatch resolves the tag to the inherited
    [render_unknown_display], a method of two arguments, and
    [render_display_data] calls it with the output alone.  The call raises
    [TypeError]; nothing is printed, logged or rendered. *)
Theorem unknown_display_format_is_fatal :
  call (render_display_data (lib := sample_library) plain_format)
       [ANode jpeg_output] sample_session
  = Raise TypeError sample_session.
Proof.
  unfold call. cbn [length render_display_data arity body Nat.eqb].
  unfold jpeg_output, keys. cbn [items_of map fst display_data_loop].
  change (str_in "output_type" image_formats) with false.
  change (str_in "jpeg" image_formats) with false.
  cbn [negb String.eqb Ascii.eqb Bool.eqb].
  unfold bind.
  by rewrite (unknown_display_format_raises plain_format "jpeg").
Qed.

Lemma unknown_cell_falls_back_witness :
  exists lines s',
    convert_cell plain_format 0 1 odd_cell sample_state
      = Ok (join nl lines) (mkState s' (nb sample_state)) /\
    call (self_attr plain_format "_unknown_lines" (abstract 1))
         [AStr (pformat odd_cell)]
         (set_log (log (session sample_state) ++ ["Unknown cell: " +:+ "slide"])
                  (session sample_state))
      = Ok lines s' /\
    log s' = log (session sample_state) ++ ["Unknown cell: " +:+ "slide"].
Proof.
  refine (proj1 (unknown_cell_falls_back plain_format _ _)
                0 1 odd_cell "slide" sample_state _ _).
  - vm_compute. reflexivity.
  - intros data s. exists ["[" +:+ data +:+ "]"], s. split; reflexivity.
  - reflexivity.
  - vm_compute. reflexivity.
Defined.

Lemma figure_counter_steps_by_one_witness :
  figures_counter (state_of (extract_all sample_requests sample_session))
    = figures_counter sample_session + length sample_requests /\
  NoDup ["nb_files/nb_fig_00.png"; "nb_files/nb_fig_01.svg"].
Proof.
  apply (proj2 figure_counter_steps_by_one sample_requests sample_session
               ["nb_files/nb_fig_00.png"; "nb_files/nb_fig_01.svg"]
               (state_of (extract_all sample_requests sample_session))).
  vm_compute. reflexivity.
Defined.

Lemma figure_file_holds_payload_witness :
  exists bytes,
    base64_decode "aGk=" = Some bytes /\
    read_file (files_dir sample_session)
              (figure_name (infile_root sample_session)
                           (figures_counter sample_session) "png")
              (state_of (_new_figure (VStr "aGk=") "png" sample_session))
      = Some bytes.
Proof.
  refine (proj1 (proj2 (figure_file_holds_payload "aGk=" "png" sample_session
                          "nb_files/nb_fig_00.png"
                          (state_of (_new_figure (VStr "aGk=") "png"
                                                 sample_session)) _)) _).
  - vm_compute. reflexivity.
  - left. reflexivity.
Defined.

Lemma figure_names_count_from_zero_witness :
  ["nb_files/nb_fig_00.png"; "nb_files/nb_fig_01.svg"] !! 1 =
  Some (path_join (files_dir sample_session)
          (figure_name (infile_root sample_session)
                       (figures_counter sample_session + 1) "svg")).
Proof.
  apply (proj1 figure_names_count_from_zero sample_requests sample_session
               ["nb_files/nb_fig_00.png"; "nb_files/nb_fig_01.svg"]
               (state_of (extract_all sample_requests sample_session))
               1 (VStr "<svg/>") "svg").
  - vm_compute. reflexivity.
  - reflexivity.
Defined.

Lemma asset_directory_life_cycle_witness :
  exists d,
    fs (state_of (session_run "nb.ipynb" sample_requests (class_defaults ∅ [])))
      !! asset_dir "nb.ipynb" = Some (Dir d) /\
    size d = length sample_requests.
Proof.
  apply (proj2 (proj2 asset_directory_life_cycle)
               "nb.ipynb" sample_requests ∅ []
               ["nb_files/nb_fig_00.png"; "nb_files/nb_fig_01.svg"]
               (state_of (session_run "nb.ipynb" sample_requests
                                      (class_defaults ∅ [])))).
  - left. reflexivity.
  - vm_compute. reflexivity.
  - discriminate.
Defined.


(** C8, the claim as it stands.  A session on [nb.ipynb] that finds
    [nb_files] with a file left by an earlier run and extracts no figure
    leaves the directory where it is. *)
Lemma stale_asset_directory_is_kept :
  exists s',
    session_run (lib := sample_library) "nb.ipynb" []
      (class_defaults {[ "nb_files" := Dir {[ "old.png" := "x" ]} ]} [])
      = Ok [] s' /\
    isdir (asset_dir "nb.ipynb") s' = true /\
    dir_listing (asset_dir "nb.ipynb") s' = Some {[ "old.png" := "x" ]}.
Proof.
  eexists. split; [|split].
  - unfold session_run. unfold bind at 1.
    replace (__init__ "nb.ipynb" _) with
      (Ok tt (mkSession "nb.ipynb" EmptyString "nb" "nb_files" "nb" "utf-8" 0
                ({[ "nb_files" := Dir {[ "old.png" := "x" ]} ]}) []))
      by (vm_compute; reflexivity).
    unfold bind at 1, extract_all, mapM, ret at 1. unfold bind at 1.
    rewrite del_spec. reflexivity.
  - vm_compute. reflexivity.
  - vm_compute. reflexivity.
Qed.


(** * The metaclass [DocStringInheritor] *)

Lemma docstring_loop_dict bases items :
  forall newClassDict docs,
    (docstring_loop bases items newClassDict docs).1 =
    foldl (fun d item => <[item.1 := item.2]> d) newClassDict items.
Proof.
  induction items as [|[name attr] items IH]; intros newClassDict docs; [done|].
  cbn [docstring_loop foldl fst snd]. apply IH.
Qed.

(** X21. The metaclass hands the class body on as it is: when no name
    occurs twice among the items, the dictionary given to [type.__new__]
    binds every name of the class body to its object and binds nothing
    else. *)
Theorem metaclass_copies_class_dict bases classDict docs :
  NoDup classDict.*1 ->
  (DocStringInheritor_new bases classDict docs).1 = list_to_map classDict.
Proof.
  intros Hkeys. unfold DocStringInheritor_new. rewrite docstring_loop_dict.
  assert (forall d : gmap string attribute,
             (forall n, n ∈ classDict.*1 -> d !! n = None) ->
             foldl (fun d item => <[item.1 := item.2]> d) d classDict =
             list_to_map classDict ∪ d) as Hfold.
  { clear docs. induction classDict as [|[n attr] items IH]; intros d Hd.
    { cbn. by rewrite (left_id_L ∅ (∪)). }
    cbn [foldl fst snd list_to_map].
    apply NoDup_cons in Hkeys as [Hn Hkeys].
    rewrite IH; [|done|].
    - rewrite <- insert_union_r; [by rewrite insert_union_l|].
      by apply not_elem_of_list_to_map_1.
    - intros n' Hn'. rewrite lookup_insert_ne; [|by intros ->].
      apply Hd. cbn. by right. }
  rewrite Hfold; [by rewrite (right_id_L ∅ (∪))|done].
Qed.

Lemma inherited_doc_truthy bases attributeName docs doc :
  inherited_doc bases attributeName docs = Some doc ->
  truthy_doc (Some doc) = true.
Proof.
  induction bases as [|baseclass bases IH]; [done|]. cbn [inherited_doc].
  destruct (baseclass !! attributeName) as [basefn|]; [|done].
  destruct (truthy_doc (docs !! basefn)) eqn:Htrue; [|done].
  intros Hdoc. by rewrite Hdoc in Htrue.
Qed.

Lemma inherited_doc_ext bases attributeName docs docs' :
  (forall baseclass basefn,
      baseclass ∈ bases -> baseclass !! attributeName = Some basefn ->
      docs' !! basefn = docs !! basefn) ->
  inherited_doc bases attributeName docs' = inherited_doc bases attributeName docs.
Proof.
  induction bases as [|baseclass bases IH]; intros Hsame; [done|].
  cbn [inherited_doc].
  rewrite IH by (intros b f Hb; apply Hsame; by right).
  destruct (baseclass !! attributeName) as [basefn|] eqn:Hattr; [|done].
  by rewrite (Hsame baseclass basefn) by (done || by left).
Qed.

Lemma binds_function_cons item items address :
  binds_function (item :: items) address <->
  item.2 = FunctionObject address \/ binds_function items address.
Proof.
  unfold binds_function. split.
  - intros [name Hin]. apply elem_of_cons in Hin as [<-|Hin]; [by left|].
    right. by exists name.
  - intros [Hitem|[name Hin]].
    + exists item.1. destruct item as [n attr]. cbn in *. subst. by left.
    + exists name. by right.
Qed.

Lemma docstring_loop_frame bases items address :
  forall newClassDict docs,
    ~ binds_function items address ->
    (docstring_loop bases items newClassDict docs).2 !! address = docs !! address.
Proof.
  induction items as [|[name attr] items IH]; intros newClassDict docs Hfree;
    [done|].
  cbn [docstring_loop]. rewrite binds_function_cons in Hfree. cbn [snd] in Hfree.
  rewrite IH by tauto.
  destruct attr as [a|a]; [|done].
  destruct (inherited_doc bases name docs); [|done].
  rewrite lookup_insert_ne; [done|]. intros ->. tauto.
Qed.

Lemma docstring_loop_truthy bases items address :
  forall newClassDict docs,
    truthy_doc (docs !! address) = true ->
    truthy_doc ((docstring_loop bases items newClassDict docs).2 !! address)
    = true.
Proof.
  induction items as [|[name attr] items IH]; intros newClassDict docs Hdoc;
    [done|].
  cbn [docstring_loop]. apply IH.
  destruct attr as [a|a]; [|done].
  destruct (inherited_doc bases name docs) as [doc|] eqn:Hinherit; [|done].
  destruct (decide (a = address)) as [->|Hne].
  - rewrite lookup_insert_eq. by eapply inherited_doc_truthy.
  - by rewrite lookup_insert_ne.
Qed.

(** X22. The metaclass changes the docstring of no object but the function
    objects bound in the class body: other objects of the class body, the
    attributes of the bases and everything else keep theirs. *)
Theorem metaclass_touches_only_bound_functions bases classDict docs address :
  ~ binds_function classDict address ->
  (DocStringInheritor_new bases classDict docs).2 !! address = docs !! address.
Proof. apply docstring_loop_frame. Qed.

(** X23. The metaclass never takes a docstring away: an object whose
    [__doc__] counts as true before the call has one that counts as true
    after it, because only docstrings that passed the test [if
    basefn.__doc__] are ever assigned. *)
Theorem metaclass_never_clears_a_docstring bases classDict docs address :
  truthy_doc (docs !! address) = true ->
  truthy_doc ((DocStringInheritor_new bases classDict docs).2 !! address) = true.
Proof. apply docstring_loop_truthy. Qed.

(** X24. The loop over the bases picks the docstring of the first base, in
    the order of [bases], that has the attribute with a docstring that is
    neither [None] nor empty; bases that lack the attribute or have it
    undocumented are passed over, and later bases are not looked at. *)
Theorem inherited_doc_is_first_documented bases attributeName docs doc :
  inherited_doc bases attributeName docs = Some doc <->
  exists i, first_documented bases attributeName docs i doc.
Proof.
  unfold first_documented. induction bases as [|baseclass bases IH].
  { split; [done|]. by intros (i & (b & f & Hb & _) & _). }
  cbn [inherited_doc]. split.
  - destruct (baseclass !! attributeName) as [basefn|] eqn:Hattr.
    + destruct (truthy_doc (docs !! basefn)) eqn:Htrue.
      * intros Hdoc. exists 0. split; [|intros; lia].
        exists baseclass, basefn. repeat split; try done.
        rewrite Hdoc in Htrue. cbn in Htrue. by apply negb_true_iff.
      * intros Hdoc. apply IH in Hdoc as (i & Hat & Hbefore).
        exists (S i). split; [done|].
        intros [|j] b f Hj Hb Hf; cbn in Hb.
        -- by simplify_eq.
        -- eapply (Hbefore j); [lia|done..].
    + intros Hdoc. apply IH in Hdoc as (i & Hat & Hbefore).
      exists (S i). split; [done|].
      intros [|j] b f Hj Hb Hf; cbn in Hb.
      -- by simplify_eq.
      -- eapply (Hbefore j); [lia|done..].
  - intros ([|i] & (b & f & Hb & Hf & Hdoc & Hfull) & Hbefore); cbn in Hb.
    + simplify_eq. rewrite Hf, Hdoc. cbn. by rewrite Hfull.
    + assert (inherited_doc bases attributeName docs = Some doc) as Hrest.
      { apply IH. exists i. split; [by exists b, f|].
        intros j b' f' Hj. apply (Hbefore (S j)). lia. }
      destruct (baseclass !! attributeName) as [basefn|] eqn:Hattr; [|done].
      by rewrite (Hbefore 0 baseclass basefn) by (done || lia).
Qed.

Lemma docstring_loop_inherits bases name address items :
  forall newClassDict docs,
    defines_anew bases items ->
    (name, FunctionObject address) ∈ items ->
    (forall name', (name', FunctionObject address) ∈ items -> name' = name) ->
    (docstring_loop bases items newClassDict docs).2 !! address =
    match inherited_doc bases name docs with
    | Some doc => Some doc
    | None => docs !! address
    end.
Proof.
  induction items as [|[n attr] items IH];
    intros newClassDict docs Hanew Hin Honly.
  { by apply elem_of_nil in Hin. }
  cbn [docstring_loop].
  set (docs1 := match attr with
                | FunctionObject a =>
                    match inherited_doc bases n docs with
                    | Some doc => <[a := doc]> docs
                    | None => docs
                    end
                | OtherObject _ => docs
                end).
  assert (Hbases : forall a, ~ binds_function ((n, attr) :: items) a ->
                             docs1 !! a = docs !! a).
  { intros a Ha. subst docs1. destruct attr as [a'|a']; [|done].
    destruct (inherited_doc bases n docs); [|done].
    rewrite lookup_insert_ne; [done|]. intros ->. apply Ha.
    exists n. by left. }
  assert (Hsame : inherited_doc bases name docs1 = inherited_doc bases name docs).
  { apply inherited_doc_ext. intros b f Hb Hf. apply Hbases. by eapply Hanew. }
  assert (Hhere : match inherited_doc bases name docs with
                  | Some doc => Some doc
                  | None => docs1 !! address
                  end =
                  match inherited_doc bases name docs with
                  | Some doc => Some doc
                  | None => docs !! address
                  end).
  { destruct (inherited_doc bases name docs) as [doc|] eqn:Hdoc; [done|].
    subst docs1. destruct attr as [a'|a']; [|done].
    destruct (inherited_doc bases n docs) as [doc'|] eqn:Hdoc'; [|done].
    destruct (decide (a' = address)) as [->|Hne]; [|by rewrite lookup_insert_ne].
    rewrite (Honly n) in Hdoc' by by left. congruence. }
  destruct (decide ((name, FunctionObject address) ∈ items)) as [Hlater|Hlast].
  - rewrite IH; [by rewrite Hsame| |done|].
    + intros b f a Hb Hf Ha. apply (Hanew b f a Hb Hf).
      apply binds_function_cons. by right.
    + intros name' Hname'. apply Honly. by right.
  - apply elem_of_cons in Hin as [[= <- <-]|Hin]; [|done].
    rewrite docstring_loop_frame.
    + subst docs1. destruct (inherited_doc bases name docs) as [doc|]; [|done].
      by rewrite lookup_insert_eq.
    + intros [name' Hname']. pose proof Hname' as Hname.
      rewrite (Honly name') in Hname by by right. done.
Qed.

(** X25. What a function of the class body ends up with: when the class
    body defines its functions anew and binds the function object under one
    name only, its docstring after the call is the docstring of the first
    documented base attribute of that name, whether or not the function had
    a docstring of its own; when no base documents the name, the function
    keeps what it had. *)
Theorem docstring_comes_from_first_documented_base
    bases classDict docs attributeName address :
  defines_anew bases classDict ->
  (attributeName, FunctionObject address) ∈ classDict ->
  (forall name, (name, FunctionObject address) ∈ classDict ->
                name = attributeName) ->
  (DocStringInheritor_new bases classDict docs).2 !! address =
  match inherited_doc bases attributeName docs with
  | Some doc => Some doc
  | None => docs !! address
  end.
Proof. apply docstring_loop_inherits. Qed.

(** * The further properties at work on the samples *)

Lemma main_body_lines_are_plain_witness :
  ["see a.png"; "[{cell_type, source}]"] <> [] /\
  Forall (fun line => contains nl_char line = false)
         ["see a.png"; "[{cell_type, source}]"] /\
  str_split nl_char (join nl ["see a.png"; "[{cell_type, source}]"])
  = ["see a.png"; "[{cell_type, source}]"].
Proof.
  apply (main_body_lines_are_plain (lib := sample_library) plain_format nl
           sample_state ["see a.png"; "[{cell_type, source}]"]
           (state_of (main_body plain_format nl sample_state))).
  vm_compute. reflexivity.
Defined.

Lemma convert_default_joins_cells_witness :
  convert (lib := sample_library) notes_format ", " sample_state =
  (per_cell <- mapM (fun '(i, j, cell) => convert_cell notes_format i j cell)
                    (positioned_cells
                       [[markdown_cell "see /files/a.png"; odd_cell]]) ;;
   ret (join ", " per_cell))%py sample_state.
Proof.
  apply (convert_default_joins_cells (lib := sample_library) notes_format ", "
           sample_state [[markdown_cell "see /files/a.png"; odd_cell]]).
  - vm_compute. reflexivity.
  - vm_compute. reflexivity.
  - reflexivity.
Defined.

Lemma convert_text_splits_into_lines_witness :
  exists header st1 body_lines st2 footer,
    lift (call (self_attr plain_format "optional_header" optional_header) [])
         sample_state = Ok header st1 /\
    main_body (lib := sample_library) plain_format nl st1 = Ok body_lines st2 /\
    lift (call (self_attr plain_format "optional_footer" optional_footer) [])
         st2 = Ok footer (state_of (convert plain_format nl sample_state)) /\
    (Forall (fun line => contains nl_char line = false) header ->
     Forall (fun line => contains nl_char line = false) footer ->
     str_split nl_char (join nl ["BEGIN"; "see a.png"; "[{cell_type, source}]"])
     = header ++ body_lines ++ footer).
Proof.
  apply (convert_text_splits_into_lines (lib := sample_library) plain_format nl
           sample_state
           (join nl ["BEGIN"; "see a.png"; "[{cell_type, source}]"])
           (state_of (convert plain_format nl sample_state))).
  vm_compute. reflexivity.
Defined.

Lemma main_body_of_no_cells_witness :
  main_body (lib := sample_library) plain_format nl
            (mkState sample_session (Some [[]; []]))
  = Ok [EmptyString] (mkState sample_session (Some [[]; []])).
Proof.
  apply (main_body_of_no_cells (lib := sample_library) plain_format nl
           (mkState sample_session (Some [[]; []])) [[]; []]).
  - reflexivity.
  - reflexivity.
Defined.

Lemma unimplemented_renderer_is_fatal_witness :
  convert_cell (lib := sample_library) plain_format 0 1 code_cell stuck_state
  = Raise NotImplementedError stuck_state.
Proof.
  apply (unimplemented_renderer_is_fatal (lib := sample_library) plain_format
           0 1 code_cell "code" stuck_state).
  - vm_compute. reflexivity.
  - vm_compute. reflexivity.
  - vm_compute. reflexivity.
Defined.

Lemma failed_rendering_keeps_rewritten_cell_witness :
  convert_cell (lib := sample_library) bare_format 0 0
               (markdown_cell "see /files/a.png") sample_state
  = Raise NotImplementedError
          (mkState (session sample_state)
                   (update_cell 0 0 (markdown_cell "see a.png")
                      <$> nb sample_state)).
Proof.
  apply (failed_rendering_keeps_rewritten_cell (lib := sample_library)
           bare_format 0 0 (markdown_cell "see /files/a.png")
           (markdown_cell "see a.png") "markdown" sample_state).
  - vm_compute. reflexivity.
  - vm_compute. reflexivity.
  - vm_compute. reflexivity.
  - vm_compute. reflexivity.
Defined.

Lemma main_body_stops_at_first_failure_witness :
  main_body (lib := sample_library) plain_format nl stuck_state
  = Raise NotImplementedError stuck_state.
Proof.
  apply (main_body_stops_at_first_failure (lib := sample_library) plain_format
           nl stuck_state [[markdown_cell "a"; code_cell; odd_cell]]
           [(0, 0, markdown_cell "a")] 0 1 code_cell [(0, 2, odd_cell)]
           ["a"] stuck_state NotImplementedError stuck_state).
  - reflexivity.
  - vm_compute. reflexivity.
  - vm_compute. reflexivity.
  - vm_compute. reflexivity.
Defined.

Lemma new_figure_succeeds_witness :
  _new_figure (lib := sample_library) (VStr "aGk=") "png" sample_session =
  Ok (path_join "nb_files" "nb_fig_00.png")
     (set_fs (<["nb_files" := Dir (<["nb_fig_00.png" := "hi"]> ∅)]>
                (fs sample_session))
             (set_figures_counter 1 sample_session)).
Proof.
  apply (new_figure_succeeds (lib := sample_library) "aGk=" "png"
                             sample_session ∅ "hi").
  - vm_compute. reflexivity.
  - vm_compute. reflexivity.
  - vm_compute. reflexivity.
Defined.

Lemma new_figure_rejects_bad_base64_witness :
  _new_figure (lib := sample_library) (VStr "aGk") "png" sample_session =
  Raise BinasciiError
        (set_figures_counter (figures_counter sample_session + 1)
                             sample_session).
Proof.
  apply (new_figure_rejects_bad_base64 (lib := sample_library) "aGk" "png"
                                       sample_session).
  - vm_compute. reflexivity.
  - vm_compute. reflexivity.
Defined.

Lemma new_figure_leaves_empty_file_witness :
  exists s',
    _new_figure (lib := sample_library) (VStr "<svg>é</svg>") "svg"
                ascii_session = Raise UnicodeError s' /\
    read_file (files_dir ascii_session)
              (figure_name (infile_root ascii_session)
                           (figures_counter ascii_session) "svg") s'
      = Some EmptyString /\
    figures_counter s' = figures_counter ascii_session + 1.
Proof.
  apply (new_figure_leaves_empty_file (lib := sample_library)
           "<svg>é</svg>" "svg" ascii_session ∅).
  - vm_compute. reflexivity.
  - vm_compute. reflexivity.
  - vm_compute. reflexivity.
  - vm_compute. reflexivity.
Defined.


Lemma plain_format_keeps_figures_counter :
  keeps_figures_counter plain_format.
Proof.
  intros name m args s Hm. unfold plain_format in Hm. cbn [attrs] in Hm.
  apply elem_of_list_to_map_2 in Hm.
  repeat (apply elem_of_cons in Hm as [Hm|Hm]);
    try (by apply elem_of_nil in Hm);
    injection Hm as -> ->; cbn [body source_lines bracket_lines image_lines
                                vector_image_lines text_lines banner];
    try reflexivity;
    destruct args as [|[cell|data] [|arg args]]; try reflexivity.
  - by destruct (node_get cell "source") as [[src|l]|].
  - by destruct (node_get cell "source") as [[src|l]|].
  - by destruct (node_get cell "text") as [[src|l]|].
Qed.

Lemma render_display_data_counts_figures_witness :
  let output := Dict [("output_type", VStr "display_data");
                      ("png", VStr "aGk="); ("text", VStr "hello");
                      ("svg", VStr "<svg/>")] in
  let r := call (render_display_data (lib := sample_library) plain_format)
                [ANode output] sample_session in
  figures_counter sample_session <= figures_counter (state_of r)
    <= figures_counter sample_session + count_image_tags (keys output) /\
  (forall lines s', r = Ok lines s' ->
     figures_counter s' =
     figures_counter sample_session + count_image_tags (keys output)).
Proof.
  intros output.
  apply (render_display_data_counts_figures (lib := sample_library)
           plain_format output sample_session).
  apply plain_format_keeps_figures_counter.
Defined.

Lemma render_unknown_display_names_output_type_witness :
  exists lines s',
    call (self_attr plain_format "render_unknown_display"
                    (render_unknown_display (lib := sample_library) plain_format))
         [ANode jpeg_output; AStr "jpeg"] sample_session = Ok lines s' /\
    call (self_attr plain_format "_unknown_lines" (abstract 1))
         [AStr (pformat jpeg_output)]
         (set_log (log sample_session ++ ["Unknown output: " +:+ "display_data"])
                  sample_session) = Ok lines s' /\
    log s' = log sample_session ++ ["Unknown output: " +:+ "display_data"].
Proof.
  apply (render_unknown_display_names_output_type (lib := sample_library)
           plain_format jpeg_output "display_data" (AStr "jpeg")
           sample_session).
  - vm_compute. reflexivity.
  - vm_compute. reflexivity.
  - intros data s. exists ["[" +:+ data +:+ "]"], s. split; reflexivity.
Defined.

Lemma session_figure_paths_witness :
  ["nb_files/nb_fig_00.png"; "nb_files/nb_fig_01.svg"] =
  imap (fun k r => asset_dir "nb.ipynb" +:+ "/" +:+
                   figure_name (doc_root "nb.ipynb")
                               (figures_counter (class_defaults ∅ []) + k) r.2)
       sample_requests.
Proof.
  apply (session_figure_paths (lib := sample_library) "nb.ipynb"
           (class_defaults ∅ []) tt
           (state_of (__init__ "nb.ipynb" (class_defaults ∅ [])))
           sample_requests
           ["nb_files/nb_fig_00.png"; "nb_files/nb_fig_01.svg"]
           (state_of (extract_all sample_requests
                        (state_of (__init__ "nb.ipynb" (class_defaults ∅ [])))))).
  - vm_compute. reflexivity.
  - vm_compute. reflexivity.
Defined.


Lemma metaclass_copies_class_dict_witness :
  (DocStringInheritor_new [base_attributes] class_body docstrings).1
  = list_to_map class_body.
Proof.
  apply (metaclass_copies_class_dict [base_attributes] class_body docstrings).
  apply (bool_decide_unpack _). vm_compute. exact I.
Defined.

Lemma metaclass_touches_only_bound_functions_witness :
  (DocStringInheritor_new [base_attributes] class_body docstrings).2 !! 12
  = docstrings !! 12.
Proof.
  apply (metaclass_touches_only_bound_functions [base_attributes] class_body
                                                docstrings 12).
  intros [name Hin]. unfold class_body in Hin.
  repeat (apply elem_of_cons in Hin as [Hin|Hin]); try discriminate.
  by apply elem_of_nil in Hin.
Defined.

Lemma metaclass_never_clears_a_docstring_witness :
  truthy_doc ((DocStringInheritor_new [base_attributes] class_body docstrings).2
                !! 11) = true.
Proof.
  apply (metaclass_never_clears_a_docstring [base_attributes] class_body
                                            docstrings 11).
  vm_compute. reflexivity.
Defined.

Lemma docstring_comes_from_first_documented_base_witness :
  (DocStringInheritor_new [base_attributes] class_body docstrings).2 !! 10 =
  match inherited_doc [base_attributes] "render_code" docstrings with
  | Some doc => Some doc
  | None => docstrings !! 10
  end.
Proof.
  apply (docstring_comes_from_first_documented_base [base_attributes]
           class_body docstrings "render_code" 10).
  - intros baseclass name address Hbase Hattr [name' Hin].
    apply list_elem_of_singleton in Hbase as ->.
    apply elem_of_list_to_map_2 in Hattr. unfold class_body in Hin.
    repeat (apply elem_of_cons in Hattr as [Hattr|Hattr]);
      try (by apply elem_of_nil in Hattr);
      injection Hattr as -> ->;
      repeat (apply elem_of_cons in Hin as [Hin|Hin]); try discriminate;
      by apply elem_of_nil in Hin.
  - unfold class_body. by left.
  - intros name Hin. unfold class_body in Hin.
    repeat (apply elem_of_cons in Hin as [Hin|Hin]); try discriminate.
    + by injection Hin as ->.
    + by apply elem_of_nil in Hin.
Defined.

(** The sample class after the metaclass has run: the overriding
    [render_code] has lost its own docstring to the one of the base, the
    overriding [render_heading] keeps its own because the base has none,
    and the string attribute and the helper are untouched. *)
Example metaclass_on_the_sample_class :
  let docs' := (DocStringInheritor_new [base_attributes] class_body docstrings).2 in
  docs' !! 10 = Some "convert a code cell" /\
  docs' !! 11 = Some "heading, my way" /\
  docs' !! 12 = Some "str(object) -> string" /\
  docs' !! 13 = None.
Proof. vm_compute. repeat split; reflexivity. Qed.

Lemma render_display_data_stops_at_unknown_tag_witness :
  call (render_display_data (lib := sample_library) plain_format)
       [ANode mixed_output] sample_session
  = Raise TypeError
          (state_of (display_data_loop plain_format mixed_output
                       ["output_type"; "png"] [] sample_session)).
Proof.
  apply (render_display_data_stops_at_unknown_tag (lib := sample_library)
           plain_format mixed_output ["output_type"; "png"] "jpeg" ["text"]
           sample_session ["image: nb_files/nb_fig_00.png"]
           (state_of (display_data_loop plain_format mixed_output
                        ["output_type"; "png"] [] sample_session))).
  - reflexivity.
  - vm_compute. reflexivity.
  - discriminate.
  - vm_compute. reflexivity.
  - vm_compute. reflexivity.
  - vm_compute. reflexivity.
Defined.

(** The figure of the bitmap is on disk when the output with the unknown
    tag has failed, and the log is empty. *)
Example unknown_tag_leaves_earlier_figure :
  match call (render_display_data (lib := sample_library) plain_format)
             [ANode mixed_output] sample_session with
  | Raise e s =>
      e = TypeError /\
      read_file "nb_files" "nb_fig_00.png" s = Some "hi" /\
      figures_counter s = 1 /\ log s = []
  | Ok _ _ => False
  end.
Proof. vm_compute. repeat split; reflexivity. Qed.
